(** * crop_image.py: sticker detection on one face of a Rubik's Cube

    A shallow embedding of [src/crop_image.py] and the properties of its
    crop geometry, contour filter, contour ranking and grid labelling.

    Conventions.
    - Python integers are [Z]; [//] on a positive divisor is [Z.div]
      (both round towards minus infinity).
    - Python floats are read as the rationals they denote ([Q]).  The only
      floats of the program are contour areas (half-integers, computed
      exactly by OpenCV for integer contours) and the two bounds of the
      area band; binary64 rounding of the two bounds is not modelled.
    - A Python call either returns or raises: [result].
    - The OpenCV primitives are not part of the repository.  They are
      parameters of the embedding (section variables); every general theorem
      holds for all of them.  Module [CvRef] gives executable reference
      instances, used only to run the code on concrete inputs. *)

From Stdlib Require Import ZArith QArith Qabs List Bool Lia Lqa Btauto.
From Stdlib Require Import Sorting.Sorted Sorting.Permutation.
Import ListNotations.
Open Scope Z_scope.

(** ** Outcomes of a call *)

Inductive exn : Type :=
| IndexError   (* an index out of range *)
| CvError.     (* cv2.error, raised inside an OpenCV primitive *)

Inductive result (A : Type) : Type :=
| Ok (a : A)
| Raise (e : exn).

Arguments Ok {A} a.
Arguments Raise {A} e.

Definition bind {A B : Type} (m : result A) (k : A -> result B) : result B :=
  match m with
  | Ok a => k a
  | Raise e => Raise e
  end.

Notation "x <- m ;; k" := (bind m (fun x => k))
  (at level 61, m at next level, right associativity).

(** ** Python and NumPy building blocks *)

Module Py.

(** [range(n)] *)
Definition range (n : nat) : list nat := seq 0 n.

(** [enumerate(l)] *)
Definition enumerate {A : Type} (l : list A) : list (nat * A) :=
  combine (seq 0 (length l)) l.

(** [l[i]] for an integer [i]: a negative index counts from the end, an
    index out of range raises IndexError. *)
Definition getitem {A : Type} (l : list A) (i : Z) : result A :=
  let n := Z.of_nat (length l) in
  let j := if i <? 0 then i + n else i in
  if (j <? 0) || (n <=? j) then Raise IndexError
  else match nth_error l (Z.to_nat j) with
       | Some a => Ok a
       | None => Raise IndexError
       end.

(** A slice bound [i] of [l[i:j]] on a sequence of length [n]: negative
    bounds count from the end, and every bound is clamped to [0..n]. *)
Definition slice_bound (i n : Z) : Z :=
  if i <? 0 then Z.max 0 (i + n) else Z.min i n.

(** [l[i:j]] *)
Definition slice {A : Type} (l : list A) (i j : Z) : list A :=
  let n := Z.of_nat (length l) in
  let lo := slice_bound i n in
  let hi := slice_bound j n in
  firstn (Z.to_nat (hi - lo)) (skipn (Z.to_nat lo) l).

(** The number of indices selected by [i:j] on an axis of length [n]. *)
Definition slice_length (n : nat) (i j : Z) : nat :=
  Z.to_nat (slice_bound j (Z.of_nat n) - slice_bound i (Z.of_nat n)).

(** [sorted(l, key=key, reverse=True)]: the keys are compared with [<]
    only, and the sort is stable also when reversed, so an element moves
    behind exactly the later elements whose key is strictly larger. *)
Definition Qltb (a b : Q) : bool := negb (Qle_bool b a).

Fixpoint insert_desc {A : Type} (key : A -> Q) (x : A) (l : list A) : list A :=
  match l with
  | [] => [x]
  | y :: l' =>
      if Qltb (key x) (key y) then y :: insert_desc key x l'
      else x :: y :: l'
  end.

Fixpoint sorted_reverse {A : Type} (key : A -> Q) (l : list A) : list A :=
  match l with
  | [] => []
  | x :: l' => insert_desc key x (sorted_reverse key l')
  end.

End Py.

Module Np.

(** One component of [np.isclose(a, b, rtol, atol)], on integers:
    [|a - b| <= atol + rtol * |b|]. *)
Definition isclose (a b rtol atol : Z) : bool :=
  Z.abs (a - b) <=? atol + rtol * Z.abs b.

(** [np.allclose(a, b, rtol, atol)] on two points: every component is
    close.  The tolerances are positional: [rtol] first, then [atol]. *)
Definition allclose (a b : Z * Z) (rtol atol : Z) : bool :=
  isclose (fst a) (fst b) rtol atol && isclose (snd a) (snd b) rtol atol.

End Np.

(** ** Data *)

(** A pixel position [(x, y)]. *)
Definition point : Type := (Z * Z)%type.

(** A contour: the array of the [[x, y]] points of a boundary. *)
Definition contour : Type := list point.

(** The named constants that the program passes to OpenCV. *)
Inductive cv_constant : Type :=
| COLOR_BGR2GRAY
| RETR_EXTERNAL
| CHAIN_APPROX_NONE.

(** An image: its rows of pixels and its width, which NumPy keeps in the
    shape also when there is no row. *)
Record image (pixel : Type) : Type := mk_image {
  img_rows : list (list pixel);
  img_width : nat
}.

Arguments mk_image {pixel} _ _.
Arguments img_rows {pixel} _.
Arguments img_width {pixel} _.

(** Every row has the width of the shape. *)
Definition image_wf {pixel : Type} (im : image pixel) : Prop :=
  Forall (fun row => length row = img_width im) (img_rows im).

(** [np.shape(image)], without the depth: [(imgheight, imgwidth)]. *)
Definition shape {pixel : Type} (im : image pixel) : Z * Z :=
  (Z.of_nat (length (img_rows im)), Z.of_nat (img_width im)).

(** [image[t:b, l:r]] *)
Definition crop {pixel : Type} (im : image pixel) (t b l r : Z) : image pixel :=
  mk_image (map (fun row => Py.slice row l r) (Py.slice (img_rows im) t b))
           (Py.slice_length (img_width im) l r).

(** [len(image)]: the number of rows. *)
Definition len {pixel : Type} (im : image pixel) : Z :=
  Z.of_nat (length (img_rows im)).

(** ** Crop geometry *)

(** The locals that [guidelines] computes before it draws (lines 26-32 and
    58-64); the [elif] tests the negation of the [if], so it is the [else]. *)
Record guide_geometry : Type := mk_guide {
  guide_border_top : Z;
  guide_border_side : Z;
  guide_center_width : Z
}.

Definition guidelines_geometry (imgheight imgwidth : Z) : guide_geometry :=
  if imgwidth >=? imgheight then
    let larger_side := imgwidth in
    let smaller_side := imgheight in
    let border_top := smaller_side / 8 in
    let border_side := larger_side / 2 - 3 * border_top in
    let center_width := 6 * border_top in
    mk_guide border_top border_side center_width
  else
    let larger_side := imgheight in
    let smaller_side := imgwidth in
    let border_side := smaller_side / 8 in
    let border_top := larger_side / 2 - 3 * border_side in
    let center_width := 6 * border_side in
    mk_guide border_top border_side center_width.

(** The locals that [identify_stickers] computes before it crops (lines
    155-171), with the same reading of the [elif]. *)
Record crop_geometry : Type := mk_geometry {
  border_top : Z;
  border_side : Z;
  true_center_width : Z;
  center_width : Z
}.

Definition sticker_geometry (imgheight imgwidth : Z) : crop_geometry :=
  if imgwidth >=? imgheight then
    let larger_side := imgwidth in
    let smaller_side := imgheight in
    let border_top := smaller_side / 8 in
    let border_side := larger_side / 2 - 3 * border_top in
    let true_center_width := 4 * border_top in
    let center_width := 6 * border_top in
    mk_geometry border_top border_side true_center_width center_width
  else
    let larger_side := imgheight in
    let smaller_side := imgwidth in
    let border_side := smaller_side / 8 in
    let border_top := larger_side / 2 - 3 * border_side in
    let true_center_width := 4 * border_side in
    let center_width := 6 * border_side in
    mk_geometry border_top border_side true_center_width center_width.

(** The crop of line 175. *)
Definition crop_center {pixel : Type} (im : image pixel) : image pixel :=
  let '(imgheight, imgwidth) := shape im in
  let g := sticker_geometry imgheight imgwidth in
  crop im (border_top g) (border_top g + center_width g)
          (border_side g) (border_side g + center_width g).

(** ** The grid of test points *)

(** The nine test points of lines 217-222, rows outside and columns
    inside. *)
Definition point_tests (standard_length : Z) : list point :=
  flat_map (fun y_coord_ind =>
    map (fun x_coord_ind =>
           let x_coord := standard_length / 4 * (Z.of_nat x_coord_ind + 1) in
           let y_coord := standard_length / 4 * (Z.of_nat y_coord_ind + 1) in
           (x_coord, y_coord))
        (Py.range 3))
    (Py.range 3).

(** ** The pipeline, over the OpenCV primitives *)

Section Pipeline.

(** Pixels of the colour image, the arrays between the stages of
    [detect_edges], and the hierarchy that comes with the contours. *)
Variable pixel : Type.
Variable gray_image : Type.
Variable edge_image : Type.
Variable hierarchy : Type.

(** The primitives that read an image raise cv2.error on input they do
    not accept. *)
Variable cvtColor : image pixel -> cv_constant -> result gray_image.
Variable GaussianBlur : gray_image -> Z * Z -> Z -> result gray_image.
Variable Canny : gray_image -> Z -> Z -> result edge_image.
Variable findContours :
  edge_image -> cv_constant -> cv_constant -> result (list contour * hierarchy).

(** [cv2.contourArea(contour)]: the area as a float, here the rational it
    denotes. *)
Variable contourArea : contour -> Q.

(** [cv2.pointPolygonTest(contour, point, measureDist)]; with
    [measureDist] false the result is [+1] inside the contour, [-1]
    outside and [0] on an edge. *)
Variable pointPolygonTest : contour -> point -> bool -> Z.

(** [detect_edges] (lines 92-114) *)
Definition detect_edges (im : image pixel) : result edge_image :=
  gray <- cvtColor im COLOR_BGR2GRAY ;;
  blurred <- GaussianBlur gray (5, 5) 0 ;;
  canny <- Canny blurred 50 150 ;;
  Ok canny.

(** The closure test of line 130: [np.allclose(contour[0], contour[-1], 30, 30)]. *)
Definition first_last_allclose (c : contour) : result bool :=
  first <- Py.getitem c 0 ;;
  last <- Py.getitem c (-1) ;;
  Ok (Np.allclose first last 30 30).

(** The two bounds of the area band of line 128. *)
Definition band_lo (center_width : Z) : Q :=
  ((inject_Z center_width / 3 - inject_Z center_width / 9) ^ 2)%Q.

Definition band_hi (center_width : Z) : Q :=
  ((inject_Z center_width / 3 + inject_Z center_width / 9) ^ 2)%Q.

(** [is_rubik_square] (lines 116-132) *)
Definition is_rubik_square (c : contour) (center_width : Z) : result bool :=
  if Qle_bool (band_lo center_width) (contourArea c)
     && Qle_bool (contourArea c) (band_hi center_width)
  then first_last_allclose c
  else Ok false.

(** The loop of lines 182-186: the contours that pass the filter, in the
    order of the input; an exception of the filter ends the loop. *)
Fixpoint closed_contours (contours : list contour) (true_center_width : Z)
  : result (list contour) :=
  match contours with
  | [] => Ok []
  | c :: rest =>
      keep <- is_rubik_square c true_center_width ;;
      tail <- closed_contours rest true_center_width ;;
      Ok (if keep then c :: tail else tail)
  end.

(** Lines 182-191: filter, rank by area, keep nine. *)
Definition select_stickers (contours : list contour) (true_center_width : Z)
  : result (list contour) :=
  closed <- closed_contours contours true_center_width ;;
  let sorted_contours := Py.sorted_reverse contourArea closed in
  Ok (firstn 9 sorted_contours).

(** [identify_stickers] (lines 134-193) *)
Definition identify_stickers (im : image pixel)
  : result (image pixel * list contour) :=
  let '(imgheight, imgwidth) := shape im in
  let g := sticker_geometry imgheight imgwidth in
  let image_cropped := crop_center im in
  edges <- detect_edges image_cropped ;;
  found <- findContours edges RETR_EXTERNAL CHAIN_APPROX_NONE ;;
  let contours := fst found in
  sticker_contours <- select_stickers contours (true_center_width g) ;;
  Ok (image_cropped, sticker_contours).

(** The inner loop of lines 226-228 for one contour. *)
Definition label_contour (points : list point) (cntindex : nat) (c : contour)
  : list (nat * nat) :=
  flat_map (fun '(ptindex, pt) =>
              if pointPolygonTest c pt false >? 0
              then [(ptindex, cntindex)] else [])
           (Py.enumerate points).

(** [correct_labels] (lines 195-241), the returned [label_key]; the
    branch on [display] draws on a copy of the image and leaves
    [label_key] as it is. *)
Definition correct_labels (image_cropped : image pixel)
                          (sticker_contours : list contour)
  : list (nat * nat) :=
  let standard_length := len image_cropped in
  let points := point_tests standard_length in
  flat_map (fun '(cntindex, c) => label_contour points cntindex c)
           (Py.enumerate sticker_contours).

End Pipeline.

Arguments detect_edges {pixel gray_image edge_image} cvtColor GaussianBlur Canny im.
Arguments identify_stickers {pixel gray_image edge_image hierarchy}
  cvtColor GaussianBlur Canny findContours contourArea im.
Arguments correct_labels {pixel} pointPolygonTest image_cropped sticker_contours.

(** ** Reference instances of the OpenCV primitives

    For contours of integer points.  They follow the documented behaviour
    of the library: the area by the shoelace formula, and the point test by
    counting the edges crossed by a ray to the right of the point. *)

Module CvRef.

Fixpoint shoelace (prev : point) (c : contour) : Z :=
  match c with
  | [] => 0
  | p :: rest => fst prev * snd p - snd prev * fst p + shoelace p rest
  end.

Definition contourArea (c : contour) : Q :=
  match c with
  | [] => 0%Q
  | p :: _ => (Qabs (inject_Z (shoelace (last c p) c)) * (1 # 2))%Q
  end.

(** One edge [v0 -> v] against the point [ip]: [None] when the point is
    on the edge, otherwise whether the ray crosses the edge. *)
Definition edge_test (ip v0 v : point) : option bool :=
  let '(x, y) := ip in
  let '(x0, y0) := v0 in
  let '(x1, y1) := v in
  if ((y0 <=? y) && (y1 <=? y)) || ((y0 >? y) && (y1 >? y))
     || ((x0 <? x) && (x1 <? x))
  then
    if (y =? y1) && ((x =? x1) ||
         ((y =? y0) && (((x0 <=? x) && (x <=? x1)) || ((x1 <=? x) && (x <=? x0)))))
    then None
    else Some false
  else
    let dist := (y - y0) * (x1 - x0) - (x - x0) * (y1 - y0) in
    if dist =? 0 then None
    else Some ((if y1 <? y0 then - dist else dist) >? 0).

Fixpoint crossings (ip v0 : point) (c : contour) (counter : Z) : option Z :=
  match c with
  | [] => Some counter
  | v :: rest =>
      match edge_test ip v0 v with
      | None => None
      | Some b => crossings ip v rest (if b then counter + 1 else counter)
      end
  end.

Definition pointPolygonTest (c : contour) (pt : point) (measureDist : bool) : Z :=
  match c with
  | [] => -1
  | p :: _ =>
      match crossings pt (last c p) c 0 with
      | None => 0
      | Some counter => if counter mod 2 =? 0 then -1 else 1
      end
  end.

End CvRef.

(** ** The guideline overlay *)

(** Assignments into a NumPy array, as [guidelines] writes them. *)
Module NpSet.

(** A list rebuilt element by element, each with its position, counted
    from [k]. *)
Fixpoint map_from {A B : Type} (k : Z) (f : Z -> A -> B) (l : list A) : list B :=
  match l with
  | [] => []
  | x :: l' => f k x :: map_from (k + 1) f l'
  end.

(** An integer index [i] on an axis of length [n]: a negative index counts
    from the end, an index out of range raises IndexError. *)
Definition index (i n : Z) : result Z :=
  let j := if i <? 0 then i + n else i in
  if (j <? 0) || (n <=? j) then Raise IndexError else Ok j.

(** [l[i:j] = v]: the value is broadcast over the slice. *)
Definition fill {A : Type} (l : list A) (i j : Z) (v : A) : list A :=
  let n := Z.of_nat (length l) in
  let lo := Py.slice_bound i n in
  let hi := Py.slice_bound j n in
  map_from 0 (fun k x => if (lo <=? k) && (k <? hi) then v else x) l.

(** [l[j] = v] for a position [j]. *)
Definition put {A : Type} (l : list A) (j : Z) (v : A) : list A :=
  map_from 0 (fun k x => if k =? j then v else x) l.

(** [a[i][l:r] = v]: the row [i] is looked up first. *)
Definition set_row {pixel : Type} (a : image pixel) (i l r : Z) (v : pixel)
  : result (image pixel) :=
  row_index <- index i (Z.of_nat (length (img_rows a))) ;;
  Ok (mk_image
        (map_from 0 (fun k row => if k =? row_index then fill row l r v else row)
                  (img_rows a))
        (img_width a)).

(** [a[t:b, j] = v]: the column [j] is looked up on the width of the
    array, whatever the rows of the slice. *)
Definition set_column {pixel : Type} (a : image pixel) (t b j : Z) (v : pixel)
  : result (image pixel) :=
  column_index <- index j (Z.of_nat (img_width a)) ;;
  let n := Z.of_nat (length (img_rows a)) in
  let lo := Py.slice_bound t n in
  let hi := Py.slice_bound b n in
  Ok (mk_image
        (map_from 0 (fun k row =>
                       if (lo <=? k) && (k <? hi) then put row column_index v
                       else row)
                  (img_rows a))
        (img_width a)).

End NpSet.

(** A pixel of three channels. *)
Definition rgb : Type := (Z * Z * Z)%type.

Definition WHITE : rgb := (255, 255, 255).

(** The eight assignments of [guidelines] (lines 37-56, and again lines
    69-88 with the same text). *)
Definition draw_guidelines (image_guidelines : image rgb)
                           (border_top border_side center_width : Z)
  : result (image rgb) :=
  a <- NpSet.set_row image_guidelines border_top
         border_side (border_side + center_width) WHITE ;;
  a <- NpSet.set_row a (border_top + center_width / 3)
         border_side (border_side + center_width) WHITE ;;
  a <- NpSet.set_row a (border_top + 2 * center_width / 3)
         border_side (border_side + center_width) WHITE ;;
  a <- NpSet.set_row a (border_top + center_width)
         border_side (border_side + center_width) WHITE ;;
  a <- NpSet.set_column a border_top (border_top + center_width)
         border_side WHITE ;;
  a <- NpSet.set_column a border_top (border_top + center_width)
         (border_side + center_width / 3) WHITE ;;
  a <- NpSet.set_column a border_top (border_top + center_width)
         (border_side + 2 * center_width / 3) WHITE ;;
  a <- NpSet.set_column a border_top (border_top + center_width)
         (border_side + center_width) WHITE ;;
  Ok a.

(** [guidelines] (lines 8-90): the copy of the image with the lines drawn;
    the image itself is left as it is. *)
Definition guidelines (im : image rgb) : result (image rgb) :=
  let '(imgheight, imgwidth) := shape im in
  let image_guidelines := im in
  let g := guidelines_geometry imgheight imgwidth in
  draw_guidelines image_guidelines
    (guide_border_top g) (guide_border_side g) (guide_center_width g).

(** ** Vocabulary of the properties *)

(** The grid point of row [r] and column [c] on a crop of side [side]. *)
Definition grid_point (side : Z) (r c : nat) : point :=
  (side / 4 * (Z.of_nat c + 1), side / 4 * (Z.of_nat r + 1)).

(** A point is strictly inside a contour when the point test is positive. *)
Definition strictly_inside (pointPolygonTest : contour -> point -> bool -> Z)
                           (c : contour) (pt : point) : Prop :=
  0 < pointPolygonTest c pt false.

(** [cv2.cvtColor] asserts that its source is not empty: on an image
    without row or without column it raises cv2.error. *)
Definition rejects_empty_image {pixel gray_image : Type}
    (cvtColor : image pixel -> cv_constant -> result gray_image) : Prop :=
  forall (im : image pixel) (code : cv_constant),
    img_rows im = [] \/ img_width im = 0%nat ->
    cvtColor im code = Raise CvError.

(** Two orders on the pairs [(grid index, contour index)]: by grid index
    first (equal pairs allowed), and by contour index first (strictly). *)
Definition grid_then_contour (a b : nat * nat) : Prop :=
  (fst a < fst b \/ (fst a = fst b /\ snd a <= snd b))%nat.

Definition contour_then_grid (a b : nat * nat) : Prop :=
  (snd a < snd b \/ (snd a = snd b /\ fst a < fst b))%nat.

(** What the filter answers, with an exception read as a refusal. *)
Definition accepts (contourArea : contour -> Q) (center_width : Z) (c : contour) : bool :=
  match is_rubik_square contourArea c center_width with
  | Ok b => b
  | Raise _ => false
  end.

(** The pixel of row [r] and column [c], when there is one. *)
Definition pixel_at {pixel : Type} (im : image pixel) (r c : nat) : option pixel :=
  match nth_error (img_rows im) r with
  | Some row => nth_error row c
  | None => None
  end.

(** The image with the value [v] at the positions chosen by [P]. *)
Definition paint {pixel : Type} (P : Z -> Z -> bool) (v : pixel) (im : image pixel)
  : image pixel :=
  mk_image
    (NpSet.map_from 0 (fun r row =>
       NpSet.map_from 0 (fun c x => if P r c then v else x) row) (img_rows im))
    (img_width im).

(** The positions of the guidelines of a window at [(top, side)] of width
    [width]: four horizontal lines over the columns of the window and four
    vertical lines over its rows. *)
Definition on_guideline (top side width : Z) (r c : Z) : bool :=
  (((r =? top) || (r =? top + width / 3) || (r =? top + 2 * width / 3)
    || (r =? top + width))
   && (side <=? c) && (c <? side + width))
  || (((c =? side) || (c =? side + width / 3) || (c =? side + 2 * width / 3)
       || (c =? side + width))
      && (top <=? r) && (r <? top + width)).

(** The position of the guideline [i] (0 to 3) across a window of width
    [width], counted from the window: [0], [width/3], [2*width/3], [width]. *)
Definition guide_line (width : Z) (i : nat) : Z := Z.of_nat i * width / 3.

(** The band of areas that the filter lets through at [center_width]. *)
Definition in_band (center_width : Z) (area : Q) : Prop :=
  (band_lo center_width <= area /\ area <= band_hi center_width)%Q.

(** A contour finder that answers a given list of contours. *)
Definition fixed_contours (found : list contour)
                          (im : image unit) (mode method : cv_constant)
  : result (list contour * unit) := Ok (found, tt).

(** An image of [h] rows and [w] columns of one colour. *)
Definition plain (h w : nat) (colour : rgb) : image rgb :=
  mk_image (repeat (repeat colour w) h) w.

(** ** Sample inputs *)

Module Samples.

(** An image of [h] rows and [w] columns whose pixels carry nothing. *)
Definition blank (h w : nat) : image unit :=
  mk_image (repeat (repeat tt w) h) w.

(** Edge primitives that find no contour.  The colour conversion raises
    cv2.error on an image without pixel, as OpenCV does, and accepts every
    other image. *)
Definition nonempty_cvtColor (im : image unit) (code : cv_constant)
  : result (image unit) :=
  match img_rows im, img_width im with
  | [], _ => Raise CvError
  | _ :: _, O => Raise CvError
  | _ :: _, S _ => Ok im
  end.
Definition accept_GaussianBlur (im : image unit) (ksize : Z * Z) (sigma : Z)
  : result (image unit) := Ok im.
Definition accept_Canny (im : image unit) (lo hi : Z)
  : result (image unit) := Ok im.
Definition no_contours (im : image unit) (mode method : cv_constant)
  : result (list contour * unit) := Ok ([], tt).

(** The square with corners [(x, y)] and [(x + side, y + side)], first
    point repeated at the end. *)
Definition square (x y side : Z) : contour :=
  [(x, y); (x, y + side); (x + side, y + side); (x + side, y); (x, y)].

(** The rectangle with corners [(x, y)] and [(x + w, y + h)]. *)
Definition rectangle (x y w h : Z) : contour :=
  [(x, y); (x, y + h); (x + w, y + h); (x + w, y); (x, y)].

End Samples.

(** * Properties *)

(** ** Slices *)

Section Slices.

Context {A : Type}.

Lemma slice_bound_inside (i n : Z) :
  0 <= i <= n -> Py.slice_bound i n = i.
Proof.
  intros Hi. unfold Py.slice_bound.
  destruct (Z.ltb_spec i 0); lia.
Qed.

(** A window inside the sequence selects as many elements as it is wide. *)
Lemma slice_length_inside (l : list A) (i j : Z) :
  0 <= i -> i <= j -> j <= Z.of_nat (length l) ->
  Z.of_nat (length (Py.slice l i j)) = j - i.
Proof.
  intros Hi Hij Hj. unfold Py.slice.
  rewrite !slice_bound_inside by lia.
  rewrite length_firstn, length_skipn. lia.
Qed.

(** A slice selects elements of the sequence. *)
Lemma slice_In (l : list A) (i j : Z) (x : A) :
  In x (Py.slice l i j) -> In x l.
Proof.
  unfold Py.slice. intros Hx.
  set (n := Z.to_nat _) in Hx. set (lo := Z.to_nat _) in Hx.
  rewrite <- (firstn_skipn lo l). apply in_or_app. right.
  rewrite <- (firstn_skipn n (skipn lo l)). apply in_or_app. left.
  exact Hx.
Qed.

(** An empty window selects nothing, wherever it is. *)
Lemma slice_empty (l : list A) (i : Z) : Py.slice l i i = [].
Proof.
  unfold Py.slice. rewrite Z.sub_diag. reflexivity.
Qed.

End Slices.

Lemma slice_length_window (n : nat) (i j : Z) :
  0 <= i -> i <= j -> j <= Z.of_nat n ->
  Z.of_nat (Py.slice_length n i j) = j - i.
Proof.
  intros Hi Hij Hj. unfold Py.slice_length.
  rewrite !slice_bound_inside by lia. lia.
Qed.

Lemma slice_length_empty (n : nat) (i : Z) : Py.slice_length n i i = 0%nat.
Proof.
  unfold Py.slice_length. rewrite Z.sub_diag. reflexivity.
Qed.

(** ** Crop geometry *)

Module Geometry.

(** The two scales, whatever the orientation. *)
Lemma scales (H W : Z) :
  center_width (sticker_geometry H W) = 6 * (Z.min H W / 8)
  /\ true_center_width (sticker_geometry H W) = 4 * (Z.min H W / 8).
Proof.
  unfold sticker_geometry.
  destruct (Z.geb_spec W H) as [Hge | Hlt];
    cbn [center_width true_center_width].
  - rewrite Z.min_l by lia. split; reflexivity.
  - rewrite Z.min_r by lia. split; reflexivity.
Qed.

(** The window is inside the image as soon as the sizes are not
    negative. *)
Lemma window_inside (H W : Z) :
  0 <= H -> 0 <= W ->
  let g := sticker_geometry H W in
  0 <= border_top g /\ border_top g + center_width g <= H
  /\ 0 <= border_side g /\ border_side g + center_width g <= W
  /\ 0 <= center_width g.
Proof.
  intros HH HW. unfold sticker_geometry.
  destruct (Z.geb_spec W H) as [Hge | Hlt];
    cbn [border_top border_side center_width];
    Z.div_mod_to_equations; lia.
Qed.

(** A short side under eight pixels leaves no window. *)
Lemma small_no_window (H W : Z) :
  0 <= H -> 0 <= W -> Z.min H W < 8 ->
  center_width (sticker_geometry H W) = 0
  /\ true_center_width (sticker_geometry H W) = 0.
Proof.
  intros HH HW Hmin. destruct (scales H W) as [-> ->].
  assert (Z.min H W / 8 = 0) as -> by (apply Z.div_small; lia).
  split; reflexivity.
Qed.

Lemma crop_center_rows {pixel : Type} (im : image pixel) :
  image_wf im ->
  let g := sticker_geometry (fst (shape im)) (snd (shape im)) in
  Z.of_nat (length (img_rows (crop_center im))) = center_width g
  /\ Forall (fun row => Z.of_nat (length row) = center_width g)
            (img_rows (crop_center im))
  /\ Z.of_nat (img_width (crop_center im)) = center_width g.
Proof.
  intros Hwf. unfold crop_center, shape. cbn [fst snd].
  set (H := Z.of_nat (length (img_rows im))).
  set (W := Z.of_nat (img_width im)).
  destruct (window_inside H W) as (Ht & Hb & Hl & Hr & Hc); [lia | lia |].
  cbv zeta in Ht, Hb, Hl, Hr, Hc |- *.
  set (g := sticker_geometry H W) in *.
  unfold crop. cbn [img_rows img_width].
  repeat split.
  - rewrite length_map, slice_length_inside; fold H; lia.
  - apply Forall_map, Forall_forall. intros row Hrow.
    assert (length row = img_width im) as Hlen.
    { apply slice_In in Hrow.
      unfold image_wf in Hwf. rewrite Forall_forall in Hwf. auto. }
    rewrite slice_length_inside; rewrite ?Hlen; fold W; lia.
  - rewrite slice_length_window; fold W; lia.
Qed.

End Geometry.

(** C6.  An image 600 high and 800 wide (landscape) gets the top offset 75,
    the left offset 175, the inner scale 300 and the outer scale 450; an
    image 800 high and 600 wide (portrait) gets the left offset 75, the top
    offset 175 and the same two scales.  The eighth of the short side is 75
    in both. *)
Theorem geometry_800x600 :
  sticker_geometry 600 800 = mk_geometry 75 175 300 450
  /\ sticker_geometry 800 600 = mk_geometry 175 75 300 450
  /\ Z.min 600 800 / 8 = 75.
Proof.
  repeat split.
Qed.

(** C7.  For every height [H] and width [W] the outer scale is
    [6 * (min H W / 8)] and the inner scale [4 * (min H W / 8)]; for an
    image with [H, W >= 8] the crop window lies inside the image, and the
    cropped image has [outer_scale] rows of [outer_scale] pixels. *)
Theorem crop_window_square (H W : Z) :
  let g := sticker_geometry H W in
  (center_width g = 6 * (Z.min H W / 8)
   /\ true_center_width g = 4 * (Z.min H W / 8))
  /\ forall (pixel : Type) (im : image pixel),
       image_wf im -> shape im = (H, W) -> 8 <= H -> 8 <= W ->
       (0 <= border_top g /\ border_top g + center_width g <= H
        /\ 0 <= border_side g /\ border_side g + center_width g <= W)
       /\ Z.of_nat (length (img_rows (crop_center im))) = center_width g
       /\ Forall (fun row => Z.of_nat (length row) = center_width g)
                 (img_rows (crop_center im))
       /\ Z.of_nat (img_width (crop_center im)) = center_width g.
Proof.
  cbv zeta. split; [apply Geometry.scales |].
  intros pixel im Hwf Hshape HH HW.
  split.
  - destruct (Geometry.window_inside H W) as (? & ? & ? & ? & ?); [lia | lia |].
    repeat split; assumption.
  - pose proof (Geometry.crop_center_rows im Hwf) as Hrows.
    rewrite Hshape in Hrows. exact Hrows.
Qed.

Lemma crop_window_square_witness :
  let im := Samples.blank 16 24 in
  Z.of_nat (length (img_rows (crop_center im))) = 12
  /\ Z.of_nat (img_width (crop_center im)) = 12.
Proof.
  cbv zeta.
  destruct (crop_window_square 16 24) as [_ Hcrop].
  destruct (Hcrop unit (Samples.blank 16 24)) as (_ & Hrows & _ & Hwidth).
  - unfold image_wf. cbn. repeat constructor.
  - reflexivity.
  - lia.
  - lia.
  - split; [exact Hrows | exact Hwidth].
Defined.

(** C9.  For every height and width, [guidelines] computes the same
    [border_top], [border_side] and [center_width] as [identify_stickers],
    in the landscape branch and in the portrait branch. *)
Theorem guidelines_same_geometry (H W : Z) :
  guide_border_top (guidelines_geometry H W) = border_top (sticker_geometry H W)
  /\ guide_border_side (guidelines_geometry H W) = border_side (sticker_geometry H W)
  /\ guide_center_width (guidelines_geometry H W) = center_width (sticker_geometry H W).
Proof.
  unfold guidelines_geometry, sticker_geometry.
  destruct (W >=? H); repeat split.
Qed.

Module SmallImage.

(** For an image whose shorter side is under 8 pixels the two scales are
    0, the crop is the empty image, and [identify_stickers] hands that
    empty crop to [detect_edges]. *)
Lemma empty_crop
  (pixel gray_image edge_image hierarchy : Type)
  (cvtColor : image pixel -> cv_constant -> result gray_image)
  (GaussianBlur : gray_image -> Z * Z -> Z -> result gray_image)
  (Canny : gray_image -> Z -> Z -> result edge_image)
  (findContours :
     edge_image -> cv_constant -> cv_constant -> result (list contour * hierarchy))
  (contourArea : contour -> Q)
  (im : image pixel) :
  Z.min (fst (shape im)) (snd (shape im)) < 8 ->
  let g := sticker_geometry (fst (shape im)) (snd (shape im)) in
  let nothing : image pixel := mk_image [] 0 in
  center_width g = 0 /\ true_center_width g = 0
  /\ crop_center im = nothing
  /\ identify_stickers cvtColor GaussianBlur Canny findContours contourArea im =
       (edges <- detect_edges cvtColor GaussianBlur Canny nothing ;;
        found <- findContours edges RETR_EXTERNAL CHAIN_APPROX_NONE ;;
        sticker_contours <- select_stickers contourArea (fst found) 0 ;;
        Ok (nothing, sticker_contours)).
Proof.
  intros Hsmall. cbv zeta.
  destruct (Geometry.small_no_window (fst (shape im)) (snd (shape im)))
    as [Hcw Htcw]; [unfold shape; cbn; lia | unfold shape; cbn; lia | exact Hsmall |].
  assert (crop_center im = mk_image [] 0) as Hcrop.
  { unfold crop_center. destruct (shape im) as [H W] eqn:Hshape.
    cbn [fst snd] in Hcw. rewrite Hcw, !Z.add_0_r.
    unfold crop. rewrite slice_empty, slice_length_empty. reflexivity. }
  repeat split; try assumption.
  unfold identify_stickers. rewrite Hcrop.
  destruct (shape im) as [H W]. cbn [fst snd] in Htcw. rewrite Htcw.
  reflexivity.
Qed.

End SmallImage.

(** C4.  For every image whose shorter side is under 8 pixels,
    [identify_stickers] does not return the degenerate crop: the window has
    the width 0, the crop is the empty image, and the first call on it,
    [cv2.cvtColor] in [detect_edges], raises cv2.error because its source
    is empty; [identify_stickers] ends with that error. *)
Theorem small_image_raises_cv_error
  (pixel gray_image edge_image hierarchy : Type)
  (cvtColor : image pixel -> cv_constant -> result gray_image)
  (GaussianBlur : gray_image -> Z * Z -> Z -> result gray_image)
  (Canny : gray_image -> Z -> Z -> result edge_image)
  (findContours :
     edge_image -> cv_constant -> cv_constant -> result (list contour * hierarchy))
  (contourArea : contour -> Q)
  (im : image pixel) :
  rejects_empty_image cvtColor ->
  Z.min (fst (shape im)) (snd (shape im)) < 8 ->
  center_width (sticker_geometry (fst (shape im)) (snd (shape im))) = 0
  /\ crop_center im = mk_image [] 0
  /\ identify_stickers cvtColor GaussianBlur Canny findContours contourArea im
     = Raise CvError
  /\ forall image_cropped sticker_contours,
       identify_stickers cvtColor GaussianBlur Canny findContours contourArea im
       <> Ok (image_cropped, sticker_contours).
Proof.
  intros Hempty Hsmall.
  destruct (SmallImage.empty_crop pixel gray_image edge_image hierarchy
              cvtColor GaussianBlur Canny findContours contourArea im Hsmall)
    as (Hwidth & _ & Hcrop & Hrun).
  assert (identify_stickers cvtColor GaussianBlur Canny findContours contourArea im
          = Raise CvError) as Hraise.
  { rewrite Hrun. unfold detect_edges.
    rewrite (Hempty (mk_image [] 0) COLOR_BGR2GRAY) by (left; reflexivity).
    reflexivity. }
  split; [exact Hwidth |]. split; [exact Hcrop |]. split; [exact Hraise |].
  intros image_cropped sticker_contours Hok. rewrite Hraise in Hok. discriminate Hok.
Qed.

(** An image of 5 rows and 7 columns. *)
Lemma small_image_raises_cv_error_witness :
  identify_stickers Samples.nonempty_cvtColor Samples.accept_GaussianBlur
    Samples.accept_Canny Samples.no_contours CvRef.contourArea (Samples.blank 5 7)
  = Raise CvError.
Proof.
  refine (proj1 (proj2 (proj2
    (small_image_raises_cv_error unit (image unit) (image unit) unit
       Samples.nonempty_cvtColor Samples.accept_GaussianBlur
       Samples.accept_Canny Samples.no_contours CvRef.contourArea
       (Samples.blank 5 7) _ _)))).
  - intros im code [Hrows | Hwidth]; unfold Samples.nonempty_cvtColor.
    + rewrite Hrows. reflexivity.
    + rewrite Hwidth. destruct (img_rows im); reflexivity.
  - cbn. lia.
Defined.

(** ** The grid of test points *)

Module Grid.

(** The nine points, in the order of their indices. *)
Lemma point_tests_rows (side : Z) :
  point_tests side =
    [ grid_point side 0 0; grid_point side 0 1; grid_point side 0 2;
      grid_point side 1 0; grid_point side 1 1; grid_point side 1 2;
      grid_point side 2 0; grid_point side 2 1; grid_point side 2 2 ].
Proof.
  reflexivity.
Qed.

(** Finds the row and the column of a given grid point among the nine. *)
Ltac pick_cell :=
  (exists 0%nat + exists 1%nat + exists 2%nat);
  (exists 0%nat + exists 1%nat + exists 2%nat);
  solve [repeat split; lia].

(** The point of index [g] is the grid point of row [g / 3] and column
    [g mod 3]. *)
Lemma nth_point_tests (side : Z) (g : nat) (p : point) :
  nth_error (point_tests side) g = Some p <->
  exists r c, (r < 3)%nat /\ (c < 3)%nat /\ g = (3 * r + c)%nat
              /\ p = grid_point side r c.
Proof.
  rewrite point_tests_rows. split.
  - intros Hnth.
    do 9 (destruct g as [| g]; [injection Hnth as <-; pick_cell |]).
    destruct g; discriminate Hnth.
  - intros (r & c & Hr & Hc & -> & ->).
    destruct r as [| [| [| r]]]; try lia;
      destruct c as [| [| [| c]]]; try lia; reflexivity.
Qed.

Lemma coordinates_inside (side : Z) (r c : nat) :
  4 <= side -> (r < 3)%nat -> (c < 3)%nat ->
  0 < fst (grid_point side r c) < side /\ 0 < snd (grid_point side r c) < side.
Proof.
  intros Hside Hr Hc. unfold grid_point. cbn [fst snd].
  assert (1 <= side / 4) by (Z.div_mod_to_equations; lia).
  assert (4 * (side / 4) <= side) by (Z.div_mod_to_equations; lia).
  nia.
Qed.

Lemma grid_point_injective (side : Z) (r c r' c' : nat) :
  4 <= side -> grid_point side r c = grid_point side r' c' -> r = r' /\ c = c'.
Proof.
  intros Hside Heq. unfold grid_point in Heq.
  assert (1 <= side / 4) by (Z.div_mod_to_equations; lia).
  injection Heq as Hx Hy. split; nia.
Qed.

End Grid.

(** C10.  On a crop of side at least 4 the nine test points are pairwise
    distinct, every coordinate lies strictly between 0 and the side, and
    the points are those of the grid of the side alone. *)
Theorem grid_points_distinct_inside (pixel : Type) (im : image pixel) (side : Z) :
  len im = side -> 4 <= side ->
  point_tests (len im) =
    [ grid_point side 0 0; grid_point side 0 1; grid_point side 0 2;
      grid_point side 1 0; grid_point side 1 1; grid_point side 1 2;
      grid_point side 2 0; grid_point side 2 1; grid_point side 2 2 ]
  /\ NoDup (point_tests (len im))
  /\ Forall (fun p => 0 < fst p < side /\ 0 < snd p < side) (point_tests (len im)).
Proof.
  intros -> Hside. split; [apply Grid.point_tests_rows |]. split.
  - apply (proj2 (NoDup_nth_error _)). intros i j Hi Hij.
    destruct (nth_error (point_tests side) i) as [p |] eqn:Hp.
    + symmetry in Hij.
      apply Grid.nth_point_tests in Hp, Hij.
      destruct Hp as (r & c & _ & _ & -> & ->).
      destruct Hij as (r' & c' & _ & _ & -> & Heq).
      apply Grid.grid_point_injective in Heq; [lia | exact Hside].
    + apply nth_error_None in Hp. lia.
  - apply Forall_forall. intros p Hp.
    apply In_nth_error in Hp. destruct Hp as [g Hg].
    apply Grid.nth_point_tests in Hg. destruct Hg as (r & c & Hr & Hc & _ & ->).
    apply Grid.coordinates_inside; assumption.
Qed.

Lemma grid_points_distinct_inside_witness :
  NoDup (point_tests (len (Samples.blank 40 40))).
Proof.
  refine (proj1 (proj2
    (grid_points_distinct_inside unit (Samples.blank 40 40) 40 _ _))).
  - reflexivity.
  - lia.
Defined.

(** ** Labelling *)

Module Labels.

(** [enumerate] pairs every element with its index. *)
Lemma In_combine_seq {A : Type} (l : list A) (s i : nat) (x : A) :
  In (i, x) (combine (seq s (length l)) l) <->
  (s <= i)%nat /\ nth_error l (i - s) = Some x.
Proof.
  revert s. induction l as [| y l IH]; intros s; cbn [length seq combine].
  - split; [intros [] | intros [_ Hnth]].
    destruct (i - s)%nat; discriminate Hnth.
  - cbn [In]. rewrite IH. split.
    + intros [Heq | [Hle Hnth]].
      * injection Heq as -> ->. rewrite Nat.sub_diag. split; [lia | reflexivity].
      * split; [lia |].
        replace (i - s)%nat with (S (i - S s)) by lia. exact Hnth.
    + intros [Hle Hnth].
      destruct (Nat.eq_dec s i) as [-> | Hne].
      * rewrite Nat.sub_diag in Hnth. injection Hnth as ->. left. reflexivity.
      * right. split; [lia |].
        replace (i - s)%nat with (S (i - S s)) in Hnth by lia. exact Hnth.
Qed.

Lemma In_enumerate {A : Type} (l : list A) (i : nat) (x : A) :
  In (i, x) (Py.enumerate l) <-> nth_error l i = Some x.
Proof.
  unfold Py.enumerate. rewrite In_combine_seq, Nat.sub_0_r.
  split; [intros [_ H]; exact H | intros H; split; [lia | exact H]].
Qed.

Section WithPointTest.

Variable pointPolygonTest : contour -> point -> bool -> Z.

(** The pairs of one contour: the points strictly inside it. *)
Lemma In_label_contour (points : list point) (k : nat) (c : contour) (g k' : nat) :
  In (g, k') (label_contour pointPolygonTest points k c) <->
  k' = k /\ exists pt, nth_error points g = Some pt
                       /\ strictly_inside pointPolygonTest c pt.
Proof.
  unfold label_contour, strictly_inside. rewrite in_flat_map. split.
  - intros [[i pt] [Hin Hpair]]. apply In_enumerate in Hin.
    destruct (Z.gtb_spec (pointPolygonTest c pt false) 0) as [Hpos | Hneg].
    + destruct Hpair as [Heq | []]. injection Heq as -> ->.
      split; [reflexivity |]. exists pt. split; [exact Hin | lia].
    + destruct Hpair.
  - intros [-> (pt & Hnth & Hpos)]. exists (g, pt). split.
    + apply In_enumerate. exact Hnth.
    + destruct (Z.gtb_spec (pointPolygonTest c pt false) 0); [left; reflexivity | lia].
Qed.

Lemma In_correct_labels {pixel : Type} (im : image pixel)
      (contours : list contour) (g k : nat) :
  In (g, k) (correct_labels pointPolygonTest im contours) <->
  exists c pt, nth_error contours k = Some c
               /\ nth_error (point_tests (len im)) g = Some pt
               /\ strictly_inside pointPolygonTest c pt.
Proof.
  unfold correct_labels. rewrite in_flat_map. split.
  - intros [[k' c] [Hin Hlab]]. apply In_enumerate in Hin.
    apply In_label_contour in Hlab. destruct Hlab as [-> (pt & Hnth & Hpos)].
    exists c, pt. repeat split; assumption.
  - intros (c & pt & Hc & Hpt & Hpos). exists (k, c). split.
    + apply In_enumerate. exact Hc.
    + apply In_label_contour. split; [reflexivity |]. exists pt. split; assumption.
Qed.

(** Sortedness of a concatenation. *)
Lemma StronglySorted_append {A : Type} (R : A -> A -> Prop) (l1 l2 : list A) :
  StronglySorted R l1 -> StronglySorted R l2 ->
  (forall a b, In a l1 -> In b l2 -> R a b) ->
  StronglySorted R (l1 ++ l2).
Proof.
  intros H1 H2 Hcross. induction H1 as [| a l1 Hl1 IH Hall]; cbn.
  - exact H2.
  - constructor.
    + apply IH. intros x y Hx Hy. apply Hcross; [right; exact Hx | exact Hy].
    + apply Forall_app. split; [exact Hall |].
      apply Forall_forall. intros y Hy. apply Hcross; [left; reflexivity | exact Hy].
Qed.

(** The pairs of one contour come with growing grid indices. *)
Lemma label_block_sorted (c : contour) (k : nat) (points : list point) (s : nat) :
  let block :=
    flat_map (fun '(ptindex, pt) =>
                if pointPolygonTest c pt false >? 0
                then [(ptindex, k)] else [])
             (combine (seq s (length points)) points) in
  StronglySorted contour_then_grid block
  /\ Forall (fun p => (s <= fst p)%nat /\ snd p = k) block.
Proof.
  cbv zeta. revert s.
  induction points as [| pt points IH]; intros s; cbn [length seq combine flat_map].
  - split; constructor.
  - destruct (IH (S s)) as [Hsorted Hall].
    assert (Forall (fun p : nat * nat => (s <= fst p)%nat /\ snd p = k)
      (flat_map (fun '(ptindex, pt0) =>
                   if pointPolygonTest c pt0 false >? 0
                   then [(ptindex, k)] else [])
                (combine (seq (S s) (length points)) points))) as Hall'.
    { eapply Forall_impl; [| exact Hall]. cbn. intros p [Hle Hk]. split; [lia | exact Hk]. }
    destruct (pointPolygonTest c pt false >? 0); cbn [app].
    + split.
      * constructor; [exact Hsorted |].
        eapply Forall_impl; [| exact Hall]. cbn. intros p [Hle Hk].
        unfold contour_then_grid. cbn. right. split; [symmetry; exact Hk | lia].
      * constructor; [cbn; split; [lia | reflexivity] | exact Hall'].
    + split; [exact Hsorted | exact Hall'].
Qed.

(** The blocks of the contours follow each other by contour index. *)
Lemma labels_sorted_from (points : list point) (contours : list contour) (s : nat) :
  let labels :=
    flat_map (fun '(cntindex, c) => label_contour pointPolygonTest points cntindex c)
             (combine (seq s (length contours)) contours) in
  StronglySorted contour_then_grid labels
  /\ Forall (fun p => (s <= snd p)%nat) labels.
Proof.
  cbv zeta. revert s.
  induction contours as [| c contours IH]; intros s; cbn [length seq combine flat_map].
  - split; constructor.
  - destruct (IH (S s)) as [Hsorted Hall].
    destruct (label_block_sorted c s points 0) as [Hblock Hblock_all].
    fold (Py.enumerate points) in Hblock, Hblock_all.
    fold (label_contour pointPolygonTest points s c) in Hblock, Hblock_all.
    split.
    + apply StronglySorted_append; [exact Hblock | exact Hsorted |].
      intros a b Ha Hb.
      rewrite Forall_forall in Hblock_all, Hall.
      destruct (Hblock_all a Ha) as [_ Hk]. specialize (Hall b Hb). cbn in Hall.
      unfold contour_then_grid. left. lia.
    + apply Forall_app. split.
      * eapply Forall_impl; [| exact Hblock_all]. cbn. intros p [_ Hk]. lia.
      * eapply Forall_impl; [| exact Hall]. cbn. intros p Hle. lia.
Qed.

End WithPointTest.

End Labels.

(** C1.  The result of the labeller contains the pair [(g, k)] exactly when
    [g] is the index [3 * r + c] of a grid point of row [r] and column [c],
    [k] is the index of a contour, and the grid point
    [(side / 4 * (c + 1), side / 4 * (r + 1))] is strictly inside that
    contour; a grid point on the boundary of the contour, where the point
    test is 0, gives no pair. *)
Theorem label_iff_strictly_inside
  (pixel : Type) (pointPolygonTest : contour -> point -> bool -> Z)
  (im : image pixel) (contours : list contour) (g k : nat) :
  (In (g, k) (correct_labels pointPolygonTest im contours) <->
   exists r c cnt,
     (r < 3)%nat /\ (c < 3)%nat /\ g = (3 * r + c)%nat
     /\ nth_error contours k = Some cnt
     /\ strictly_inside pointPolygonTest cnt (grid_point (len im) r c))
  /\ (forall r c cnt,
        (r < 3)%nat -> (c < 3)%nat -> g = (3 * r + c)%nat ->
        nth_error contours k = Some cnt ->
        pointPolygonTest cnt (grid_point (len im) r c) false = 0 ->
        ~ In (g, k) (correct_labels pointPolygonTest im contours)).
Proof.
  assert (In (g, k) (correct_labels pointPolygonTest im contours) <->
    exists r c cnt,
      (r < 3)%nat /\ (c < 3)%nat /\ g = (3 * r + c)%nat
      /\ nth_error contours k = Some cnt
      /\ strictly_inside pointPolygonTest cnt (grid_point (len im) r c)) as Hiff.
  { rewrite Labels.In_correct_labels. split.
    - intros (cnt & pt & Hcnt & Hpt & Hin).
      apply Grid.nth_point_tests in Hpt. destruct Hpt as (r & c & Hr & Hc & Hg & ->).
      exists r, c, cnt. repeat split; assumption.
    - intros (r & c & cnt & Hr & Hc & Hg & Hcnt & Hin).
      exists cnt, (grid_point (len im) r c). repeat split; try assumption.
      apply Grid.nth_point_tests. exists r, c. repeat split; assumption. }
  split; [exact Hiff |].
  intros r c cnt Hr Hc Hg Hcnt Hzero Hin.
  apply Hiff in Hin. destruct Hin as (r' & c' & cnt' & Hr' & Hc' & Hg' & Hcnt' & Hpos).
  assert (r' = r /\ c' = c) as [-> ->] by lia.
  rewrite Hcnt in Hcnt'. injection Hcnt' as <-.
  unfold strictly_inside in Hpos. lia.
Qed.

(** The grid point of index 0 on a crop of side 40 is (10, 10), on the left
    edge of the square from (10, 5) to (40, 35): no pair (0, 0). *)
Lemma label_iff_strictly_inside_witness :
  ~ In (0%nat, 0%nat)
       (correct_labels CvRef.pointPolygonTest (Samples.blank 40 40)
                       [Samples.square 10 5 30]).
Proof.
  refine (proj2 (label_iff_strictly_inside unit CvRef.pointPolygonTest
                   (Samples.blank 40 40) [Samples.square 10 5 30] 0 0)
                0%nat 0%nat (Samples.square 10 5 30) _ _ _ _ _).
  - lia.
  - lia.
  - reflexivity.
  - reflexivity.
  - reflexivity.
Defined.

(** C2, as the code has it.  The pairs come in the order of discovery,
    with the contour index [k] in the outer loop and the grid index [g] in
    the inner loop: the list is strictly increasing for the order by [k]
    first and [g] second. *)
Theorem labels_ordered_by_contour_then_grid
  (pixel : Type) (pointPolygonTest : contour -> point -> bool -> Z)
  (im : image pixel) (contours : list contour) :
  StronglySorted contour_then_grid (correct_labels pointPolygonTest im contours).
Proof.
  unfold correct_labels, Py.enumerate.
  exact (proj1 (Labels.labels_sorted_from pointPolygonTest
                  (point_tests (len im)) contours 0)).
Qed.

(** C2, as the claim has it, fails: on a crop of side 40 with a square
    around all nine grid points and a square around the first one, the
    pair (8, 0) comes before the pair (0, 1). *)
Lemma labels_not_ordered_by_grid_then_contour :
  let labels :=
    correct_labels CvRef.pointPolygonTest (Samples.blank 40 40)
                   [Samples.square 5 5 30; Samples.square 5 5 10] in
  labels = [(0, 0); (1, 0); (2, 0); (3, 0); (4, 0); (5, 0); (6, 0); (7, 0);
            (8, 0); (0, 1)]%nat
  /\ ~ StronglySorted grid_then_contour labels
  /\ ~ Sorted grid_then_contour labels.
Proof.
  cbv zeta.
  assert (correct_labels CvRef.pointPolygonTest (Samples.blank 40 40)
            [Samples.square 5 5 30; Samples.square 5 5 10]
          = [(0, 0); (1, 0); (2, 0); (3, 0); (4, 0); (5, 0); (6, 0); (7, 0);
             (8, 0); (0, 1)]%nat) as -> by (vm_compute; reflexivity).
  assert (~ Sorted grid_then_contour
            [(0, 0); (1, 0); (2, 0); (3, 0); (4, 0); (5, 0); (6, 0); (7, 0);
             (8, 0); (0, 1)]%nat) as Hnot.
  { intros Hs.
    do 8 (apply Sorted_inv in Hs; destruct Hs as [Hs _]).
    apply Sorted_inv in Hs. destruct Hs as [_ Hrel].
    apply HdRel_inv in Hrel. unfold grid_then_contour in Hrel. cbn in Hrel. lia. }
  split; [reflexivity |]. split; [| exact Hnot].
  intros Hs. apply Hnot. apply StronglySorted_Sorted. exact Hs.
Qed.

(** ** The filter *)

Module Filter.

Lemma getitem_first {A : Type} (p : A) (rest : list A) :
  Py.getitem (p :: rest) 0 = Ok p.
Proof.
  unfold Py.getitem. cbn [length Z.ltb Z.compare].
  destruct (Z.ltb_spec 0 0); [lia |].
  destruct (Z.leb_spec (Z.of_nat (S (length rest))) 0); [lia |].
  reflexivity.
Qed.

Lemma nth_error_last {A : Type} (rest : list A) (p d : A) :
  nth_error (p :: rest) (length rest) = Some (last (p :: rest) d).
Proof.
  revert p. induction rest as [| q rest IH]; intros p.
  - reflexivity.
  - cbn [length nth_error]. rewrite (IH q). reflexivity.
Qed.

Lemma getitem_last {A : Type} (p : A) (rest : list A) :
  Py.getitem (p :: rest) (-1) = Ok (last (p :: rest) p).
Proof.
  unfold Py.getitem.
  change (-1 <? 0) with true. cbv iota.
  set (n := Z.of_nat (length (p :: rest))).
  assert (n = Z.of_nat (length rest) + 1) as Hn by (unfold n; cbn [length]; lia).
  destruct (Z.ltb_spec (-1 + n) 0); [lia |].
  destruct (Z.leb_spec n (-1 + n)); [lia |]. cbn [orb].
  replace (Z.to_nat (-1 + n)) with (length rest) by lia.
  rewrite (nth_error_last rest p p). reflexivity.
Qed.

(** On a contour with a point the closure test returns. *)
Lemma first_last_allclose_cons (p : point) (rest : contour) :
  first_last_allclose (p :: rest)
  = Ok (Np.allclose p (last (p :: rest) p) 30 30).
Proof.
  unfold first_last_allclose. rewrite getitem_first, getitem_last. reflexivity.
Qed.

(** The closure test of the code: each coordinate of the first point is
    within [30 + 30 * |coordinate of the last point|] of the last point. *)
Lemma allclose_30_30 (a b : point) :
  Np.allclose a b 30 30 = true <->
  Z.abs (fst a - fst b) <= 30 + 30 * Z.abs (fst b)
  /\ Z.abs (snd a - snd b) <= 30 + 30 * Z.abs (snd b).
Proof.
  unfold Np.allclose, Np.isclose.
  rewrite andb_true_iff, !Z.leb_le. reflexivity.
Qed.

(** A difference of at most 30 on each axis always passes. *)
Lemma allclose_within_30 (a b : point) :
  Z.abs (fst a - fst b) <= 30 -> Z.abs (snd a - snd b) <= 30 ->
  Np.allclose a b 30 30 = true.
Proof.
  intros Hx Hy. apply allclose_30_30. lia.
Qed.

Section WithArea.

Variable contourArea : contour -> Q.

(** The filter in terms of the band and the closure test. *)
Lemma is_rubik_square_true (c : contour) (cw : Z) :
  is_rubik_square contourArea c cw = Ok true <->
  (band_lo cw <= contourArea c)%Q /\ (contourArea c <= band_hi cw)%Q
  /\ first_last_allclose c = Ok true.
Proof.
  unfold is_rubik_square.
  destruct (Qle_bool (band_lo cw) (contourArea c)) eqn:Hlo;
    destruct (Qle_bool (contourArea c) (band_hi cw)) eqn:Hhi; cbn [andb].
  - apply Qle_bool_iff in Hlo, Hhi. tauto.
  - split; [discriminate |]. intros (_ & H & _).
    apply Qle_bool_iff in H. congruence.
  - split; [discriminate |]. intros (H & _).
    apply Qle_bool_iff in H. congruence.
  - split; [discriminate |]. intros (H & _).
    apply Qle_bool_iff in H. congruence.
Qed.

(** Outside the band the answer is no, whatever the contour. *)
Lemma is_rubik_square_outside (c : contour) (cw : Z) :
  (contourArea c < band_lo cw)%Q \/ (band_hi cw < contourArea c)%Q ->
  is_rubik_square contourArea c cw = Ok false.
Proof.
  intros Hout. unfold is_rubik_square.
  destruct (Qle_bool (band_lo cw) (contourArea c)) eqn:Hlo;
    destruct (Qle_bool (contourArea c) (band_hi cw)) eqn:Hhi;
    cbn [andb]; try reflexivity.
  apply Qle_bool_iff in Hlo, Hhi.
  destruct Hout as [H | H]; [apply Qlt_not_le in H | apply Qlt_not_le in H]; tauto.
Qed.

(** On a contour with a point the filter returns. *)
Lemma is_rubik_square_returns (c : contour) (cw : Z) :
  c <> [] -> is_rubik_square contourArea c cw = Ok (accepts contourArea cw c).
Proof.
  intros Hc. destruct c as [| p rest]; [congruence |].
  unfold accepts, is_rubik_square.
  destruct (Qle_bool _ _ && Qle_bool _ _); [| reflexivity].
  rewrite first_last_allclose_cons. reflexivity.
Qed.

(** The loop keeps the accepted contours, in their order. *)
Lemma closed_contours_filter (contours : list contour) (cw : Z) :
  Forall (fun c => c <> []) contours ->
  closed_contours contourArea contours cw
  = Ok (filter (accepts contourArea cw) contours).
Proof.
  induction 1 as [| c rest Hc Hrest IH]; cbn [closed_contours filter].
  - reflexivity.
  - rewrite (is_rubik_square_returns c cw Hc), IH. cbn [bind].
    destruct (accepts contourArea cw c); reflexivity.
Qed.

End WithArea.

End Filter.

(** ** The ranking *)

Module Ranking.

Lemma Qltb_lt (a b : Q) : Py.Qltb a b = true <-> (a < b)%Q.
Proof.
  unfold Py.Qltb. rewrite negb_true_iff. split.
  - intros H. apply Qnot_le_lt. intros Hle.
    apply Qle_bool_iff in Hle. congruence.
  - intros H. destruct (Qle_bool b a) eqn:Hle; [| reflexivity].
    apply Qle_bool_iff in Hle. apply Qlt_not_le in H. tauto.
Qed.

Lemma Qltb_ge (a b : Q) : Py.Qltb a b = false <-> (b <= a)%Q.
Proof.
  unfold Py.Qltb. rewrite negb_false_iff. apply Qle_bool_iff.
Qed.

Lemma Qltb_compat (a b a' b' : Q) :
  (a == a')%Q -> (b == b')%Q -> Py.Qltb a b = Py.Qltb a' b'.
Proof.
  intros Ha Hb. unfold Py.Qltb. rewrite Ha, Hb. reflexivity.
Qed.

Section WithKey.

Context {A : Type}.
Variable key : A -> Q.

Lemma insert_desc_perm (x : A) (l : list A) :
  Permutation (Py.insert_desc key x l) (x :: l).
Proof.
  induction l as [| y l IH]; cbn [Py.insert_desc].
  - reflexivity.
  - destruct (Py.Qltb (key x) (key y)).
    + rewrite IH. apply perm_swap.
    + reflexivity.
Qed.

(** The sort keeps the elements. *)
Lemma sorted_reverse_perm (l : list A) :
  Permutation (Py.sorted_reverse key l) l.
Proof.
  induction l as [| x l IH]; cbn [Py.sorted_reverse].
  - reflexivity.
  - rewrite insert_desc_perm. apply perm_skip. exact IH.
Qed.

Lemma insert_desc_sorted (x : A) (l : list A) :
  StronglySorted (fun a b => (key b <= key a)%Q) l ->
  StronglySorted (fun a b => (key b <= key a)%Q) (Py.insert_desc key x l).
Proof.
  induction 1 as [| y l Hl IH Hall]; cbn [Py.insert_desc].
  - repeat constructor.
  - destruct (Py.Qltb (key x) (key y)) eqn:Hcmp.
    + apply Qltb_lt in Hcmp. constructor; [exact IH |].
      apply (Permutation_Forall (Permutation_sym (insert_desc_perm x l))).
      constructor; [apply Qlt_le_weak; exact Hcmp | exact Hall].
    + apply Qltb_ge in Hcmp. constructor.
      * constructor; assumption.
      * constructor; [exact Hcmp |].
        eapply Forall_impl; [| exact Hall]. cbn. intros z Hz.
        apply Qle_trans with (key y); assumption.
Qed.

(** The sort puts the keys in descending order. *)
Lemma sorted_reverse_sorted (l : list A) :
  StronglySorted (fun a b => (key b <= key a)%Q) (Py.sorted_reverse key l).
Proof.
  induction l as [| x l IH]; cbn [Py.sorted_reverse].
  - constructor.
  - apply insert_desc_sorted. exact IH.
Qed.

Lemma insert_desc_stable (v : Q) (x : A) (l : list A) :
  filter (fun a => Qeq_bool (key a) v) (Py.insert_desc key x l)
  = filter (fun a => Qeq_bool (key a) v) (x :: l).
Proof.
  induction l as [| y l IH]; cbn [Py.insert_desc].
  - reflexivity.
  - destruct (Py.Qltb (key x) (key y)) eqn:Hcmp; [| reflexivity].
    apply Qltb_lt in Hcmp.
    cbn [filter] in IH |- *. rewrite IH.
    destruct (Qeq_bool (key x) v) eqn:Hx;
      destruct (Qeq_bool (key y) v) eqn:Hy; try reflexivity.
    apply Qeq_bool_iff in Hx, Hy. rewrite Hx, Hy in Hcmp.
    apply Qlt_irrefl in Hcmp. destruct Hcmp.
Qed.

(** The sort is stable: the elements of one key keep their order. *)
Lemma sorted_reverse_stable (v : Q) (l : list A) :
  filter (fun a => Qeq_bool (key a) v) (Py.sorted_reverse key l)
  = filter (fun a => Qeq_bool (key a) v) l.
Proof.
  induction l as [| x l IH]; cbn [Py.sorted_reverse].
  - reflexivity.
  - rewrite insert_desc_stable. cbn [filter]. rewrite IH. reflexivity.
Qed.

(** Four elements with the keys 50, 70, 70 and 30. *)
Lemma sorted_reverse_50_70_70_30 (c0 c1 c2 c3 : A) :
  (key c0 == 50)%Q -> (key c1 == 70)%Q -> (key c2 == 70)%Q -> (key c3 == 30)%Q ->
  Py.sorted_reverse key [c0; c1; c2; c3] = [c1; c2; c0; c3].
Proof.
  intros H0 H1 H2 H3. cbn [Py.sorted_reverse Py.insert_desc].
  rewrite (Qltb_compat _ _ 70 30 H2 H3).
  change (Py.Qltb 70 30) with false. cbn [Py.insert_desc].
  rewrite (Qltb_compat _ _ 70 70 H1 H2).
  change (Py.Qltb 70 70) with false. cbn [Py.insert_desc].
  rewrite (Qltb_compat _ _ 50 70 H0 H1).
  change (Py.Qltb 50 70) with true. cbn [Py.insert_desc].
  rewrite (Qltb_compat _ _ 50 70 H0 H2).
  change (Py.Qltb 50 70) with true. cbn [Py.insert_desc].
  rewrite (Qltb_compat _ _ 50 30 H0 H3).
  change (Py.Qltb 50 30) with false. cbn [Py.insert_desc].
  reflexivity.
Qed.

End WithKey.

End Ranking.

(** C3.  The closure test of the code is not an absolute tolerance of 30
    pixels: with the intended width 300, the contour below has the area
    10000, inside the band, its first point (81, 50) and its last point
    (50, 50) differ by (31, 0), and the filter accepts it, because
    [np.allclose] is called with the relative tolerance 30 as well and
    allows 30 + 30 * 50 pixels there.  The same difference is refused only
    where the last point has the coordinate 0, and a difference of
    (29, 29) passes everywhere. *)
Theorem closure_tolerance_grows_with_position :
  let open_contour := [(81, 50); (150, 50); (150, 150); (50, 150); (50, 50)] in
  (Py.getitem open_contour 0 = Ok (81, 50)
   /\ Py.getitem open_contour (-1) = Ok (50, 50)
   /\ (CvRef.contourArea open_contour == 10000)%Q
   /\ first_last_allclose open_contour = Ok true
   /\ is_rubik_square CvRef.contourArea open_contour 300 = Ok true)
  /\ first_last_allclose [(31, 0); (100, 0); (100, 100); (0, 100); (0, 0)] = Ok false
  /\ (forall x y : Z, Np.allclose (x + 29, y + 29) (x, y) 30 30 = true)
  /\ (forall x y : Z, Np.allclose (x + 31, y) (x, y) 30 30 = true <-> x <> 0).
Proof.
  cbv zeta. split; [repeat split |]. split; [reflexivity |]. split.
  - intros x y. apply Filter.allclose_within_30; cbn [fst snd]; lia.
  - intros x y. rewrite Filter.allclose_30_30. cbn [fst snd]. lia.
Qed.

(** C8.  For a contour that passes the closure test, the filter accepts it
    exactly when its area lies between [(s/3 - s/9)^2] and [(s/3 + s/9)^2],
    both bounds included, with the division of the rationals and [s] the
    inner scale; for [s = 300] the area 10000 passes, the area
    [(300/3 - 300/9)^2 - 1] fails and the area [(300/3 + 300/9)^2 + 1]
    fails. *)
Theorem area_band_inclusive
  (contourArea : contour -> Q) (c : contour) (inner_scale : Z) :
  first_last_allclose c = Ok true ->
  let s := inject_Z inner_scale in
  (is_rubik_square contourArea c inner_scale = Ok true <->
   ((s / 3 - s / 9) ^ 2 <= contourArea c /\ contourArea c <= (s / 3 + s / 9) ^ 2)%Q)
  /\ ((contourArea c == 10000)%Q ->
      is_rubik_square contourArea c 300 = Ok true)
  /\ ((contourArea c == (300 / 3 - 300 / 9) ^ 2 - 1)%Q ->
      is_rubik_square contourArea c 300 = Ok false)
  /\ ((contourArea c == (300 / 3 + 300 / 9) ^ 2 + 1)%Q ->
      is_rubik_square contourArea c 300 = Ok false).
Proof.
  intros Hclosed. cbv zeta. split; [| split; [| split]].
  - rewrite Filter.is_rubik_square_true. unfold band_lo, band_hi. tauto.
  - intros Harea. apply Filter.is_rubik_square_true.
    rewrite Harea. repeat split; [discriminate | discriminate | exact Hclosed].
  - intros Harea. apply Filter.is_rubik_square_outside. left.
    rewrite Harea. reflexivity.
  - intros Harea. apply Filter.is_rubik_square_outside. right.
    rewrite Harea. reflexivity.
Qed.

(** The square of side 100 has the area 10000 and passes at the inner
    scale 300. *)
Lemma area_band_inclusive_witness :
  is_rubik_square CvRef.contourArea (Samples.square 50 50 100) 300 = Ok true.
Proof.
  refine (proj1 (proj2
    (area_band_inclusive CvRef.contourArea (Samples.square 50 50 100) 300 _)) _).
  - reflexivity.
  - reflexivity.
Defined.

(** C5.  For contours that each have a point, the selector returns the
    contours that pass the filter, ranked by [sorted] with the area as key
    and reversed, cut to the first nine.  The ranking keeps the passing
    contours, puts their areas in descending order, and is stable: the
    contours of one area keep the order of the input.  Passing contours of
    areas 50, 70, 70 and 30, in that order, come out in the order of the
    indices 1, 2, 0, 3. *)
Theorem select_stickers_stable_top_nine
  (contourArea : contour -> Q) (contours : list contour) (inner_scale : Z) :
  Forall (fun c => c <> []) contours ->
  let passing := filter (accepts contourArea inner_scale) contours in
  let ranked := Py.sorted_reverse contourArea passing in
  Forall (fun c => is_rubik_square contourArea c inner_scale
                   = Ok (accepts contourArea inner_scale c)) contours
  /\ select_stickers contourArea contours inner_scale = Ok (firstn 9 ranked)
  /\ Permutation ranked passing
  /\ StronglySorted (fun a b => (contourArea b <= contourArea a)%Q) ranked
  /\ (forall area : Q,
        filter (fun c => Qeq_bool (contourArea c) area) ranked
        = filter (fun c => Qeq_bool (contourArea c) area) passing)
  /\ (forall c0 c1 c2 c3 : contour,
        passing = [c0; c1; c2; c3] ->
        (contourArea c0 == 50)%Q -> (contourArea c1 == 70)%Q ->
        (contourArea c2 == 70)%Q -> (contourArea c3 == 30)%Q ->
        select_stickers contourArea contours inner_scale = Ok [c1; c2; c0; c3]).
Proof.
  intros Hpoints. cbv zeta.
  assert (select_stickers contourArea contours inner_scale
          = Ok (firstn 9 (Py.sorted_reverse contourArea
                            (filter (accepts contourArea inner_scale) contours))))
    as Hselect.
  { unfold select_stickers.
    rewrite (Filter.closed_contours_filter contourArea contours inner_scale Hpoints).
    reflexivity. }
  split; [| split; [exact Hselect | split; [| split; [| split]]]].
  - eapply Forall_impl; [| exact Hpoints]. cbn. intros c Hc.
    apply Filter.is_rubik_square_returns. exact Hc.
  - apply Ranking.sorted_reverse_perm.
  - apply Ranking.sorted_reverse_sorted.
  - intros area. apply Ranking.sorted_reverse_stable.
  - intros c0 c1 c2 c3 Hpassing H0 H1 H2 H3.
    rewrite Hselect, Hpassing.
    rewrite (Ranking.sorted_reverse_50_70_70_30 contourArea c0 c1 c2 c3 H0 H1 H2 H3).
    reflexivity.
Qed.

(** Four rectangles of areas 50, 70, 70 and 30 at the inner scale 24. *)
Lemma select_stickers_stable_top_nine_witness :
  select_stickers CvRef.contourArea
    [Samples.rectangle 0 0 5 10; Samples.rectangle 10 0 7 10;
     Samples.rectangle 20 0 7 10; Samples.rectangle 30 0 3 10] 24
  = Ok [Samples.rectangle 10 0 7 10; Samples.rectangle 20 0 7 10;
        Samples.rectangle 0 0 5 10; Samples.rectangle 30 0 3 10].
Proof.
  refine (proj2 (proj2 (proj2 (proj2 (proj2
    (select_stickers_stable_top_nine CvRef.contourArea
       [Samples.rectangle 0 0 5 10; Samples.rectangle 10 0 7 10;
        Samples.rectangle 20 0 7 10; Samples.rectangle 30 0 3 10] 24 _)))))
    _ _ _ _ _ _ _ _ _).
  - repeat constructor; discriminate.
  - reflexivity.
  - reflexivity.
  - reflexivity.
  - reflexivity.
  - reflexivity.
Defined.

(** ** The guideline overlay *)

Module Overlay.

Section MapFrom.

Context {A B : Type}.

Lemma map_from_length (f : Z -> A -> B) (l : list A) (k : Z) :
  length (NpSet.map_from k f l) = length l.
Proof.
  revert k. induction l as [| x l IH]; intros k; cbn [NpSet.map_from length].
  - reflexivity.
  - rewrite IH. reflexivity.
Qed.

Lemma map_from_nth (f : Z -> A -> B) (l : list A) (k : Z) (i : nat) :
  nth_error (NpSet.map_from k f l) i
  = option_map (f (k + Z.of_nat i)) (nth_error l i).
Proof.
  revert k i. induction l as [| x l IH]; intros k i; cbn [NpSet.map_from].
  - destruct i; reflexivity.
  - destruct i as [| i]; cbn [nth_error option_map].
    + rewrite Z.add_0_r. reflexivity.
    + rewrite IH. f_equal. f_equal. lia.
Qed.

(** Two rebuilds agree as soon as they agree at the positions of the list. *)
Lemma map_from_ext (f g : Z -> A -> B) (l : list A) (k : Z) :
  (forall i x, nth_error l i = Some x -> f (k + Z.of_nat i) x = g (k + Z.of_nat i) x) ->
  NpSet.map_from k f l = NpSet.map_from k g l.
Proof.
  revert k. induction l as [| x l IH]; intros k Hfg; cbn [NpSet.map_from].
  - reflexivity.
  - f_equal.
    + specialize (Hfg 0%nat x eq_refl). rewrite Z.add_0_r in Hfg. exact Hfg.
    + apply IH. intros i y Hy. specialize (Hfg (S i) y Hy).
      replace (k + 1 + Z.of_nat i) with (k + Z.of_nat (S i)) by lia. exact Hfg.
Qed.

End MapFrom.

Lemma map_from_id {A : Type} (l : list A) (k : Z) :
  NpSet.map_from k (fun _ x => x) l = l.
Proof.
  revert k. induction l as [| x l IH]; intros k; cbn [NpSet.map_from].
  - reflexivity.
  - rewrite IH. reflexivity.
Qed.

Lemma map_from_map_from {A B C : Type} (f : Z -> B -> C) (g : Z -> A -> B)
      (l : list A) (k : Z) :
  NpSet.map_from k f (NpSet.map_from k g l)
  = NpSet.map_from k (fun i x => f i (g i x)) l.
Proof.
  revert k. induction l as [| x l IH]; intros k; cbn [NpSet.map_from].
  - reflexivity.
  - rewrite IH. reflexivity.
Qed.

Lemma index_inside (i n : Z) : 0 <= i < n -> NpSet.index i n = Ok i.
Proof.
  intros Hi. unfold NpSet.index.
  destruct (Z.ltb_spec i 0); [lia |].
  destruct (Z.ltb_spec i 0); [lia |].
  destruct (Z.leb_spec n i); [lia |]. reflexivity.
Qed.

(** On an axis without element every index is out of range. *)
Lemma index_empty (i : Z) : NpSet.index i 0 = Raise IndexError.
Proof.
  unfold NpSet.index. rewrite Z.add_0_r.
  destruct (i <? 0); destruct (Z.ltb_spec i 0); destruct (Z.leb_spec 0 i);
    try reflexivity; lia.
Qed.

Section Paint.

Context {pixel : Type}.

Lemma paint_wf (P : Z -> Z -> bool) (v : pixel) (im : image pixel) :
  image_wf im -> image_wf (paint P v im).
Proof.
  unfold image_wf, paint. cbn [img_rows img_width]. intros Hwf.
  apply Forall_forall. intros row Hrow.
  apply In_nth_error in Hrow. destruct Hrow as [i Hi].
  rewrite map_from_nth in Hi.
  destruct (nth_error (img_rows im) i) as [row0 |] eqn:Hrow0; [| discriminate Hi].
  injection Hi as <-. rewrite map_from_length.
  rewrite Forall_forall in Hwf. apply Hwf. eapply nth_error_In. exact Hrow0.
Qed.

Lemma paint_shape (P : Z -> Z -> bool) (v : pixel) (im : image pixel) :
  shape (paint P v im) = shape im.
Proof.
  unfold shape, paint. cbn [img_rows img_width].
  rewrite map_from_length. reflexivity.
Qed.

(** A pixel of the painted image. *)
Lemma paint_pixel (P : Z -> Z -> bool) (v : pixel) (im : image pixel) (r c : nat) :
  pixel_at (paint P v im) r c
  = option_map (fun x => if P (Z.of_nat r) (Z.of_nat c) then v else x)
               (pixel_at im r c).
Proof.
  unfold pixel_at, paint. cbn [img_rows].
  rewrite map_from_nth.
  destruct (nth_error (img_rows im) r) as [row |]; cbn [option_map]; [| reflexivity].
  rewrite map_from_nth. reflexivity.
Qed.

Lemma paint_ext (P Q : Z -> Z -> bool) (v : pixel) (im : image pixel) :
  (forall r c, 0 <= r -> 0 <= c -> P r c = Q r c) -> paint P v im = paint Q v im.
Proof.
  intros HPQ. unfold paint. f_equal.
  apply map_from_ext. intros i row _.
  apply map_from_ext. intros j x _.
  rewrite HPQ by lia. reflexivity.
Qed.

(** Painting twice with one value paints the union. *)
Lemma paint_paint (P Q : Z -> Z -> bool) (v : pixel) (im : image pixel) :
  paint P v (paint Q v im) = paint (fun r c => P r c || Q r c) v im.
Proof.
  unfold paint. cbn [img_rows img_width]. f_equal.
  rewrite map_from_map_from. apply map_from_ext. intros i row _.
  rewrite map_from_map_from. apply map_from_ext. intros j x _.
  destruct (P _ _); destruct (Q _ _); reflexivity.
Qed.

(** A row assignment inside the array paints a segment of that row. *)
Lemma set_row_paint (a : image pixel) (i l r : Z) (v : pixel) :
  image_wf a ->
  0 <= i < Z.of_nat (length (img_rows a)) ->
  0 <= l -> l <= r -> r <= Z.of_nat (img_width a) ->
  NpSet.set_row a i l r v
  = Ok (paint (fun y x => (y =? i) && ((l <=? x) && (x <? r))) v a).
Proof.
  intros Hwf Hi Hl Hlr Hr. unfold NpSet.set_row.
  rewrite index_inside by exact Hi. cbn [bind]. unfold paint. do 2 f_equal.
  apply map_from_ext. intros k row Hrow. rewrite Z.add_0_l.
  destruct (Z.eqb_spec (Z.of_nat k) i) as [Heq | Hne].
  - unfold NpSet.fill.
    assert (length row = img_width a) as Hlen.
    { unfold image_wf in Hwf. rewrite Forall_forall in Hwf.
      apply Hwf. eapply nth_error_In. exact Hrow. }
    rewrite Hlen, !slice_bound_inside by lia. reflexivity.
  - cbn [andb]. rewrite map_from_id. reflexivity.
Qed.

(** A column assignment inside the array paints a segment of that column. *)
Lemma set_column_paint (a : image pixel) (t b j : Z) (v : pixel) :
  0 <= j < Z.of_nat (img_width a) ->
  0 <= t -> t <= b -> b <= Z.of_nat (length (img_rows a)) ->
  NpSet.set_column a t b j v
  = Ok (paint (fun y x => ((t <=? y) && (y <? b)) && (x =? j)) v a).
Proof.
  intros Hj Ht Htb Hb. unfold NpSet.set_column.
  rewrite index_inside by exact Hj. cbn [bind]. unfold paint. do 2 f_equal.
  rewrite !slice_bound_inside by lia.
  apply map_from_ext. intros k row Hrow. rewrite Z.add_0_l.
  destruct ((t <=? Z.of_nat k) && (Z.of_nat k <? b)); cbn [andb].
  - reflexivity.
  - rewrite map_from_id. reflexivity.
Qed.

End Paint.

(** The window of the guidelines on an image with a pixel. *)
Lemma guide_window (H W : Z) :
  1 <= H -> 1 <= W ->
  let g := guidelines_geometry H W in
  0 <= guide_center_width g
  /\ 0 <= guide_border_top g
  /\ guide_border_top g + guide_center_width g < H
  /\ 0 <= guide_border_side g
  /\ guide_border_side g + guide_center_width g < W.
Proof.
  intros HH HW. unfold guidelines_geometry.
  destruct (Z.geb_spec W H) as [Hge | Hlt];
    cbn [guide_border_top guide_border_side guide_center_width];
    Z.div_mod_to_equations; lia.
Qed.

Lemma paint_rows {pixel : Type} (P : Z -> Z -> bool) (v : pixel) (im : image pixel) :
  length (img_rows (paint P v im)) = length (img_rows im).
Proof.
  unfold paint. cbn [img_rows]. apply map_from_length.
Qed.

(** The eight assignments, when the window and its far lines are in the
    image, paint the guidelines. *)
Lemma draw_guidelines_paint (a : image rgb) (top side width : Z) :
  image_wf a ->
  0 <= width -> 0 <= top -> top + width < Z.of_nat (length (img_rows a)) ->
  0 <= side -> side + width < Z.of_nat (img_width a) ->
  draw_guidelines a top side width
  = Ok (paint (on_guideline top side width) WHITE a).
Proof.
  intros Hwf Hw Ht Hb Hl Hr. unfold draw_guidelines.
  assert (0 <= width / 3 /\ width / 3 <= 2 * width / 3 /\ 2 * width / 3 <= width)
    as (H1 & H2 & H3) by (Z.div_mod_to_equations; lia).
  rewrite set_row_paint by (try assumption; lia). cbn [bind].
  do 3 (rewrite set_row_paint;
        [ | apply paint_wf; exact Hwf
          | rewrite paint_rows; lia | lia | lia
          | unfold paint; cbn [img_width]; lia ];
        cbn [bind]; rewrite paint_paint).
  do 4 (rewrite set_column_paint;
        [ | unfold paint; cbn [img_width]; lia | lia | lia
          | rewrite paint_rows; lia ];
        cbn [bind]; rewrite paint_paint).
  f_equal. apply paint_ext. intros r c _ _. unfold on_guideline. btauto.
Qed.

(** Without a column the first column assignment fails, after the four
    row assignments. *)
Lemma draw_guidelines_no_column (a : image rgb) (top : Z) :
  image_wf a -> img_width a = 0%nat ->
  0 <= top < Z.of_nat (length (img_rows a)) ->
  draw_guidelines a top 0 0 = Raise IndexError.
Proof.
  intros Hwf Hwidth Htop. unfold draw_guidelines.
  change (0 / 3) with 0. change (2 * 0 / 3) with 0. rewrite !Z.add_0_r.
  rewrite set_row_paint by (try assumption; lia). cbn [bind].
  do 3 (rewrite set_row_paint;
        [ | apply paint_wf; exact Hwf
          | rewrite paint_rows; lia | lia | lia
          | unfold paint; cbn [img_width]; lia ];
        cbn [bind]; rewrite paint_paint).
  unfold NpSet.set_column, paint. cbn [img_width]. rewrite Hwidth.
  rewrite index_empty. reflexivity.
Qed.

End Overlay.

Module OverlayCases.

(** [guidelines] on an image that has a pixel, and on one that has none. *)
Lemma guidelines_cases (im : image rgb) :
  image_wf im ->
  let g := guidelines_geometry (fst (shape im)) (snd (shape im)) in
  ((img_rows im = [] \/ img_width im = 0%nat)
   /\ guidelines im = Raise IndexError)
  \/ ((1 <= length (img_rows im))%nat /\ (1 <= img_width im)%nat
      /\ guidelines im
         = Ok (paint (on_guideline (guide_border_top g) (guide_border_side g)
                                   (guide_center_width g)) WHITE im)).
Proof.
  intros Hwf. cbv zeta. unfold guidelines, shape. cbn [fst snd].
  destruct (img_rows im) as [| row rows] eqn:Hrows.
  - left. split; [left; reflexivity |].
    unfold draw_guidelines, NpSet.set_row. rewrite Hrows. cbn [length Z.of_nat].
    rewrite Overlay.index_empty. reflexivity.
  - destruct (img_width im) as [| w] eqn:Hwidth.
    + left. split; [right; reflexivity |].
      unfold guidelines_geometry.
      destruct (Z.geb_spec (Z.of_nat 0) (Z.of_nat (length (row :: rows))))
        as [Hge | Hlt]; [cbn [length] in Hge; lia |].
      cbn [guide_border_top guide_border_side guide_center_width].
      change (Z.of_nat 0 / 8) with 0. rewrite Z.mul_0_r, Z.sub_0_r.
      apply Overlay.draw_guidelines_no_column.
      * exact Hwf.
      * exact Hwidth.
      * rewrite Hrows. cbn [length] in *. Z.div_mod_to_equations; lia.
    + right. split; [cbn [length]; lia |]. split; [lia |].
      rewrite <- Hrows, <- Hwidth.
      destruct (Overlay.guide_window (Z.of_nat (length (img_rows im)))
                                     (Z.of_nat (img_width im)))
        as (Hw & Ht & Hb & Hl & Hr);
        [rewrite Hrows; cbn [length]; lia | lia |].
      apply Overlay.draw_guidelines_paint; assumption.
Qed.

(** The window of [guidelines] is the window of [identify_stickers]. *)
Lemma same_window (H W : Z) :
  guidelines_geometry H W
  = mk_guide (border_top (sticker_geometry H W))
             (border_side (sticker_geometry H W))
             (center_width (sticker_geometry H W)).
Proof.
  unfold guidelines_geometry, sticker_geometry.
  destruct (W >=? H); reflexivity.
Qed.

(** A guideline position is in the window or on the line after it, and is
    not the far corner. *)
Lemma on_guideline_window (top side width r c : Z) :
  0 <= width ->
  on_guideline top side width r c = true ->
  top <= r <= top + width /\ side <= c <= side + width
  /\ ~ (r = top + width /\ c = side + width).
Proof.
  intros Hw. unfold on_guideline.
  assert (0 <= width / 3 /\ width / 3 <= 2 * width / 3 /\ 2 * width / 3 <= width)
    as (H1 & H2 & H3) by (Z.div_mod_to_equations; lia).
  rewrite !orb_true_iff, !andb_true_iff, !orb_true_iff.
  rewrite !Z.eqb_eq, !Z.leb_le, !Z.ltb_lt. lia.
Qed.

End OverlayCases.

(** X1.  On a rectangular image, [guidelines] raises IndexError exactly
    when the image has no pixel (no row or no column), and returns an
    image exactly when it has one. *)
Theorem guidelines_raises_iff_no_pixel (im : image rgb) :
  image_wf im ->
  (guidelines im = Raise IndexError
   <-> (img_rows im = [] \/ img_width im = 0%nat))
  /\ ((exists out, guidelines im = Ok out)
      <-> ((1 <= length (img_rows im))%nat /\ (1 <= img_width im)%nat)).
Proof.
  intros Hwf.
  destruct (OverlayCases.guidelines_cases im Hwf)
    as [[Hnone Hraise] | (Hrows & Hwidth & Hok)].
  - split; split.
    + intros _. exact Hnone.
    + intros _. exact Hraise.
    + intros [out Hout]. rewrite Hraise in Hout. discriminate Hout.
    + intros [Hrows Hwidth]. destruct Hnone as [Hnone | Hnone].
      * rewrite Hnone in Hrows. cbn in Hrows. lia.
      * lia.
  - split; split.
    + intros Hraise. rewrite Hok in Hraise. discriminate Hraise.
    + intros [Hnone | Hnone].
      * rewrite Hnone in Hrows. cbn in Hrows. lia.
      * lia.
    + intros _. split; assumption.
    + intros _. eexists. exact Hok.
Qed.

Lemma guidelines_raises_iff_no_pixel_witness :
  guidelines (plain 3 0 (0, 0, 0)) = Raise IndexError
  /\ exists out, guidelines (plain 8 8 (0, 0, 0)) = Ok out.
Proof.
  split.
  - refine (proj2 (proj1 (guidelines_raises_iff_no_pixel (plain 3 0 (0, 0, 0)) _)) _).
    + unfold image_wf. cbn. repeat constructor.
    + right. reflexivity.
  - refine (proj2 (proj2 (guidelines_raises_iff_no_pixel (plain 8 8 (0, 0, 0)) _)) _).
    + unfold image_wf. cbn. repeat constructor.
    + cbn. lia.
Defined.

(** X2.  On a rectangular image with a pixel, [guidelines] returns an
    image of the same shape in which a pixel is white when it is on one of
    the four horizontal lines (rows [top], [top + width/3],
    [top + 2*width/3], [top + width], over the columns [side] to
    [side + width - 1]) or of the four vertical lines (the same with rows
    and columns exchanged), and is the pixel of the input otherwise. *)
Theorem guidelines_pixels (im : image rgb) :
  image_wf im ->
  (1 <= length (img_rows im))%nat -> (1 <= img_width im)%nat ->
  let g := guidelines_geometry (fst (shape im)) (snd (shape im)) in
  exists out,
    guidelines im = Ok out
    /\ shape out = shape im
    /\ image_wf out
    /\ forall r c,
         pixel_at out r c
         = option_map
             (fun x => if on_guideline (guide_border_top g) (guide_border_side g)
                                       (guide_center_width g)
                                       (Z.of_nat r) (Z.of_nat c)
                       then WHITE else x)
             (pixel_at im r c).
Proof.
  intros Hwf Hrows Hwidth. cbv zeta.
  destruct (OverlayCases.guidelines_cases im Hwf)
    as [[Hnone Hraise] | (_ & _ & Hok)].
  - destruct Hnone as [Hnone | Hnone].
    + rewrite Hnone in Hrows. cbn in Hrows. lia.
    + lia.
  - eexists. split; [exact Hok |]. split; [apply Overlay.paint_shape |].
    split; [apply Overlay.paint_wf; exact Hwf |].
    intros r c. apply Overlay.paint_pixel.
Qed.

Lemma guidelines_pixels_witness :
  exists out,
    guidelines (plain 8 8 (0, 0, 0)) = Ok out
    /\ pixel_at out 1 1 = Some WHITE
    /\ pixel_at out 2 2 = Some (0, 0, 0).
Proof.
  destruct (guidelines_pixels (plain 8 8 (0, 0, 0))) as (out & Hok & _ & _ & Hpix).
  - unfold image_wf. cbn. repeat constructor.
  - cbn. lia.
  - cbn. lia.
  - exists out. split; [exact Hok |]. split.
    + rewrite (Hpix 1%nat 1%nat). reflexivity.
    + rewrite (Hpix 2%nat 2%nat). reflexivity.
Defined.

(** X3.  [guidelines] changes a pixel only in the crop window of
    [identify_stickers] or on the row and the column that follow it: rows
    [border_top] to [border_top + center_width], columns [border_side] to
    [border_side + center_width]; and it never changes the far corner
    [(border_top + center_width, border_side + center_width)]. *)
Theorem guidelines_stays_on_window (im out : image rgb) (r c : nat) :
  image_wf im ->
  guidelines im = Ok out ->
  pixel_at out r c <> pixel_at im r c ->
  let g := sticker_geometry (fst (shape im)) (snd (shape im)) in
  border_top g <= Z.of_nat r <= border_top g + center_width g
  /\ border_side g <= Z.of_nat c <= border_side g + center_width g
  /\ ~ (Z.of_nat r = border_top g + center_width g
        /\ Z.of_nat c = border_side g + center_width g).
Proof.
  intros Hwf Hok Hchanged. cbv zeta.
  destruct (OverlayCases.guidelines_cases im Hwf)
    as [[_ Hraise] | (Hrows & Hwidth & Hpaint)].
  - rewrite Hraise in Hok. discriminate Hok.
  - rewrite Hpaint in Hok. injection Hok as <-.
    rewrite Overlay.paint_pixel in Hchanged.
    rewrite OverlayCases.same_window in Hchanged.
    cbn [guide_border_top guide_border_side guide_center_width] in Hchanged.
    destruct (on_guideline _ _ _ (Z.of_nat r) (Z.of_nat c)) eqn:Hon.
    + apply OverlayCases.on_guideline_window; [| exact Hon].
      destruct (Geometry.window_inside (fst (shape im)) (snd (shape im)))
        as (_ & _ & _ & _ & Hw); [unfold shape; cbn; lia | unfold shape; cbn; lia |].
      exact Hw.
    + exfalso. apply Hchanged.
      destruct (pixel_at im r c); reflexivity.
Qed.

Lemma guidelines_stays_on_window_witness :
  let g := sticker_geometry 8 8 in
  border_top g <= 1 <= border_top g + center_width g
  /\ border_side g <= 1 <= border_side g + center_width g.
Proof.
  pose proof (guidelines_stays_on_window (plain 8 8 (0, 0, 0))
                (paint (on_guideline 1 1 6) WHITE (plain 8 8 (0, 0, 0)))
                1 1) as Hwindow.
  cbv zeta in Hwindow.
  destruct Hwindow as (Hrow & Hcolumn & _).
  - unfold image_wf. cbn. repeat constructor.
  - vm_compute. reflexivity.
  - vm_compute. discriminate.
  - split; [exact Hrow | exact Hcolumn].
Defined.

(** ** The test points on the crop of the pipeline *)

Module GridFacts.

(** The nine points of a side of at least 4: distinct and strictly inside. *)
Lemma distinct_inside (side : Z) :
  4 <= side ->
  NoDup (point_tests side)
  /\ Forall (fun p => 0 < fst p < side /\ 0 < snd p < side) (point_tests side).
Proof.
  intros Hside. split.
  - apply (proj2 (NoDup_nth_error _)). intros i j Hi Hij.
    destruct (nth_error (point_tests side) i) as [p |] eqn:Hp.
    + symmetry in Hij.
      apply Grid.nth_point_tests in Hp, Hij.
      destruct Hp as (r & c & _ & _ & -> & ->).
      destruct Hij as (r' & c' & _ & _ & -> & Heq).
      apply Grid.grid_point_injective in Heq; [lia | exact Hside].
    + apply nth_error_None in Hp. lia.
  - apply Forall_forall. intros p Hp.
    apply In_nth_error in Hp. destruct Hp as [g Hg].
    apply Grid.nth_point_tests in Hg. destruct Hg as (r & c & Hr & Hc & _ & ->).
    apply Grid.coordinates_inside; assumption.
Qed.

(** The side of the crop of a rectangular image. *)
Lemma len_crop_center {pixel : Type} (im : image pixel) :
  image_wf im ->
  len (crop_center im)
  = 6 * (Z.min (fst (shape im)) (snd (shape im)) / 8).
Proof.
  intros Hwf. unfold len.
  destruct (Geometry.crop_center_rows im Hwf) as (Hrows & _).
  rewrite Hrows. apply Geometry.scales.
Qed.

(** Where the three coordinates of the test points fall between the
    guidelines of a window of width [6 * b]. *)
Lemma coordinate_between_lines (b : Z) :
  (forall i : nat, (i < 3)%nat ->
     guide_line (6 * b) i < 6 * b / 4 * (Z.of_nat i + 1) < guide_line (6 * b) (S i))
  <-> (b = 2 \/ 4 <= b).
Proof.
  unfold guide_line. split.
  - intros Hall.
    pose proof (Hall 0%nat ltac:(lia)) as H0.
    pose proof (Hall 2%nat ltac:(lia)) as H2.
    cbn [Z.of_nat Pos.of_succ_nat Pos.succ] in H0, H2.
    revert H0 H2. Z.div_mod_to_equations. lia.
  - intros Hb i Hi.
    destruct i as [| [| [| i]]]; try lia;
      cbn [Z.of_nat Pos.of_succ_nat Pos.succ];
      Z.div_mod_to_equations; lia.
Qed.

End GridFacts.

(** X4.  For a rectangular image whose sides are at least 8 pixels, the
    nine test points that [correct_labels] builds on the crop returned by
    [identify_stickers] are pairwise distinct and strictly inside the
    crop. *)
Theorem crop_test_points_inside (pixel : Type) (im : image pixel) :
  image_wf im ->
  8 <= fst (shape im) -> 8 <= snd (shape im) ->
  let side := len (crop_center im) in
  NoDup (point_tests side)
  /\ Forall (fun p => 0 < fst p < side /\ 0 < snd p < side) (point_tests side).
Proof.
  intros Hwf HH HW. cbv zeta. apply GridFacts.distinct_inside.
  rewrite (GridFacts.len_crop_center im Hwf).
  assert (1 <= Z.min (fst (shape im)) (snd (shape im)) / 8)
    by (apply Z.div_le_lower_bound; lia).
  lia.
Qed.

Lemma crop_test_points_inside_witness :
  NoDup (point_tests (len (crop_center (Samples.blank 16 24)))).
Proof.
  refine (proj1 (crop_test_points_inside unit (Samples.blank 16 24) _ _ _)).
  - unfold image_wf. cbn. repeat constructor.
  - cbn. lia.
  - cbn. lia.
Defined.

(** X5.  The guidelines cut the window in three by three cells.  With
    [b] the eighth of the shorter side of a rectangular image, every test
    point of [correct_labels] on the crop lies strictly inside the cell of
    its row and column, between the guidelines that [guidelines] draws,
    exactly when [b = 2] or [b >= 4] (a shorter side of 16 to 23 pixels, or
    of 32 and more); for the other sizes some test point is on a guideline
    or in another cell. *)
Theorem test_points_in_guideline_cells (pixel : Type) (im : image pixel) :
  image_wf im ->
  let H := fst (shape im) in
  let W := snd (shape im) in
  let b := Z.min H W / 8 in
  let width := guide_center_width (guidelines_geometry H W) in
  let side := len (crop_center im) in
  (forall r c : nat, (r < 3)%nat -> (c < 3)%nat ->
     guide_line width c < fst (grid_point side r c) < guide_line width (S c)
     /\ guide_line width r < snd (grid_point side r c) < guide_line width (S r))
  <-> (b = 2 \/ 4 <= b).
Proof.
  intros Hwf. cbv zeta.
  rewrite (GridFacts.len_crop_center im Hwf).
  rewrite OverlayCases.same_window. cbn [guide_center_width].
  rewrite (proj1 (Geometry.scales (fst (shape im)) (snd (shape im)))).
  set (b := Z.min (fst (shape im)) (snd (shape im)) / 8).
  unfold grid_point. cbn [fst snd].
  rewrite <- GridFacts.coordinate_between_lines. split.
  - intros Hall i Hi. exact (proj1 (Hall i i Hi Hi)).
  - intros Hall r c Hr Hc. split; apply Hall; assumption.
Qed.

Lemma test_points_in_guideline_cells_witness :
  guide_line 24 1 < fst (grid_point (len (crop_center (Samples.blank 32 40))) 0 1)
  < guide_line 24 2.
Proof.
  refine (proj1 (proj2 (test_points_in_guideline_cells unit (Samples.blank 32 40) _)
                   _ 0%nat 1%nat _ _)).
  - unfold image_wf. cbn. repeat constructor.
  - right. vm_compute. discriminate.
  - lia.
  - lia.
Defined.

(** ** More on the labels *)

Module LabelFacts.

Lemma contour_then_grid_irreflexive (a : nat * nat) : ~ contour_then_grid a a.
Proof.
  unfold contour_then_grid. lia.
Qed.

(** A list that grows strictly has no repetition. *)
Lemma StronglySorted_NoDup {A : Type} (R : A -> A -> Prop) (l : list A) :
  (forall a, ~ R a a) -> StronglySorted R l -> NoDup l.
Proof.
  intros Hirr Hsorted. induction Hsorted as [| a l Hl IH Hall].
  - constructor.
  - constructor; [| exact IH].
    intros Hin. rewrite Forall_forall in Hall. exact (Hirr a (Hall a Hin)).
Qed.

(** A list without repetition that holds one value only is that value. *)
Lemma NoDup_singleton {A : Type} (l : list A) (a : A) :
  NoDup l -> (forall x, In x l <-> x = a) -> l = [a].
Proof.
  intros Hnodup Hin. destruct l as [| x l].
  - exfalso. apply (proj2 (Hin a) eq_refl).
  - assert (x = a) as -> by (apply Hin; left; reflexivity).
    destruct l as [| y l]; [reflexivity |].
    assert (y = a) as -> by (apply Hin; right; left; reflexivity).
    inversion Hnodup as [| ? ? Hnotin _]. exfalso. apply Hnotin. left. reflexivity.
Qed.

Section WithPointTest.

Variable pointPolygonTest : contour -> point -> bool -> Z.

Lemma label_contour_length (points : list point) (k : nat) (c : contour) :
  (length (label_contour pointPolygonTest points k c) <= length points)%nat.
Proof.
  unfold label_contour, Py.enumerate. generalize 0%nat as s.
  induction points as [| pt points IH]; intros s; cbn [length seq combine flat_map].
  - lia.
  - rewrite length_app. specialize (IH (S s)).
    destruct (pointPolygonTest c pt false >? 0); cbn [length]; lia.
Qed.

Lemma labels_length_from (points : list point) (contours : list contour) (s : nat) :
  (length (flat_map (fun '(cntindex, c) =>
                       label_contour pointPolygonTest points cntindex c)
                    (combine (seq s (length contours)) contours))
   <= length points * length contours)%nat.
Proof.
  revert s. induction contours as [| c contours IH]; intros s;
    cbn [length seq combine flat_map].
  - lia.
  - rewrite length_app. specialize (IH (S s)).
    pose proof (label_contour_length points s c). lia.
Qed.

Lemma label_contour_NoDup (points : list point) (k : nat) (c : contour) :
  NoDup (label_contour pointPolygonTest points k c).
Proof.
  apply (StronglySorted_NoDup contour_then_grid).
  - apply contour_then_grid_irreflexive.
  - exact (proj1 (Labels.label_block_sorted pointPolygonTest c k points 0)).
Qed.

(** A contour with one point of the grid strictly inside gets that one
    pair. *)
Lemma label_contour_single (points : list point) (k g0 : nat) (c : contour) :
  (g0 < length points)%nat ->
  (forall g pt, nth_error points g = Some pt ->
                (strictly_inside pointPolygonTest c pt <-> g = g0)) ->
  label_contour pointPolygonTest points k c = [(g0, k)].
Proof.
  intros Hg0 Hone. apply NoDup_singleton; [apply label_contour_NoDup |].
  intros [g k']. rewrite Labels.In_label_contour. split.
  - intros [-> (pt & Hpt & Hin)]. apply (Hone g pt Hpt) in Hin. subst g. reflexivity.
  - intros Heq. injection Heq as -> ->. split; [reflexivity |].
    destruct (nth_error points g0) as [pt |] eqn:Hpt.
    + exists pt. split; [reflexivity |]. apply (Hone g0 pt Hpt). reflexivity.
    + apply nth_error_None in Hpt. lia.
Qed.

Lemma labels_single_from (points : list point) (f : nat -> nat)
      (contours : list contour) (s : nat) :
  (forall k c, nth_error contours k = Some c ->
     (f (s + k) < length points)%nat
     /\ forall g pt, nth_error points g = Some pt ->
          (strictly_inside pointPolygonTest c pt <-> g = f (s + k))%nat) ->
  flat_map (fun '(cntindex, c) => label_contour pointPolygonTest points cntindex c)
           (combine (seq s (length contours)) contours)
  = map (fun k => (f k, k)) (seq s (length contours)).
Proof.
  revert s. induction contours as [| c contours IH]; intros s Hone;
    cbn [length seq combine flat_map map].
  - reflexivity.
  - destruct (Hone 0%nat c eq_refl) as [Hlt Hiff]. rewrite Nat.add_0_r in Hlt, Hiff.
    rewrite (label_contour_single points s (f s) c Hlt Hiff).
    cbn [app]. f_equal. apply IH. intros k c' Hc'.
    replace (S s + k)%nat with (s + S k)%nat by lia.
    apply Hone. exact Hc'.
Qed.

End WithPointTest.

End LabelFacts.

(** X6.  Every pair [(g, k)] that [correct_labels] returns has a grid
    index [g] under 9 and a contour index [k] that is a position of the
    list of contours; no pair is returned twice; and there are at most
    nine pairs for each contour. *)
Theorem labels_in_range_no_repeat
  (pixel : Type) (pointPolygonTest : contour -> point -> bool -> Z)
  (im : image pixel) (contours : list contour) :
  let labels := correct_labels pointPolygonTest im contours in
  Forall (fun p => (fst p < 9)%nat /\ (snd p < length contours)%nat) labels
  /\ NoDup labels
  /\ (length labels <= 9 * length contours)%nat.
Proof.
  cbv zeta. split; [| split].
  - apply Forall_forall. intros [g k] Hin. cbn [fst snd].
    apply Labels.In_correct_labels in Hin.
    destruct Hin as (c & pt & Hc & Hpt & _). split.
    + apply Grid.nth_point_tests in Hpt. destruct Hpt as (r & col & Hr & Hcol & -> & _). lia.
    + apply nth_error_Some. rewrite Hc. discriminate.
  - apply (LabelFacts.StronglySorted_NoDup contour_then_grid).
    + apply LabelFacts.contour_then_grid_irreflexive.
    + unfold correct_labels, Py.enumerate.
      exact (proj1 (Labels.labels_sorted_from pointPolygonTest
                      (point_tests (len im)) contours 0)).
  - unfold correct_labels, Py.enumerate.
    apply (LabelFacts.labels_length_from pointPolygonTest
             (point_tests (len im)) contours 0).
Qed.

(** X7.  On a crop of fewer than 4 rows the nine test points are all the
    point (0, 0): a contour gets all nine grid indices when (0, 0) is
    strictly inside it, and none otherwise. *)
Theorem small_crop_all_or_nothing
  (pixel : Type) (pointPolygonTest : contour -> point -> bool -> Z)
  (im : image pixel) (contours : list contour) (k : nat) (cnt : contour) :
  len im < 4 ->
  nth_error contours k = Some cnt ->
  point_tests (len im) = repeat (0, 0) 9
  /\ forall g, (g < 9)%nat ->
       (In (g, k) (correct_labels pointPolygonTest im contours)
        <-> strictly_inside pointPolygonTest cnt (0, 0)).
Proof.
  intros Hsmall Hcnt.
  assert (len im / 4 = 0) as Hq.
  { apply Z.div_small. unfold len in *. lia. }
  assert (point_tests (len im) = repeat (0, 0) 9) as Hpoints.
  { rewrite Grid.point_tests_rows. unfold grid_point. rewrite Hq. reflexivity. }
  split; [exact Hpoints |].
  intros g Hg. rewrite Labels.In_correct_labels, Hpoints. split.
  - intros (c & pt & Hc & Hpt & Hin).
    rewrite Hcnt in Hc. injection Hc as <-.
    apply nth_error_In, repeat_spec in Hpt. subst pt. exact Hin.
  - intros Hin. exists cnt, (0, 0). split; [exact Hcnt |]. split; [| exact Hin].
    do 9 (destruct g as [| g]; [reflexivity |]). lia.
Qed.

Lemma small_crop_all_or_nothing_witness :
  point_tests (len (Samples.blank 3 3)) = repeat (0, 0) 9.
Proof.
  refine (proj1 (small_crop_all_or_nothing unit CvRef.pointPolygonTest
                   (Samples.blank 3 3) [Samples.square 0 0 2] 0
                   (Samples.square 0 0 2) _ _)).
  - cbn. lia.
  - reflexivity.
Defined.

(** X8.  When every contour has exactly one test point strictly inside,
    the one of grid index [f k] for the contour of index [k],
    [correct_labels] returns one pair for each contour, in the order of the
    contours: [(f 0, 0), (f 1, 1), ...]. *)
Theorem one_point_per_contour
  (pixel : Type) (pointPolygonTest : contour -> point -> bool -> Z)
  (im : image pixel) (contours : list contour) (f : nat -> nat) :
  (forall k c, nth_error contours k = Some c ->
     (f k < 9)%nat
     /\ forall g pt, nth_error (point_tests (len im)) g = Some pt ->
          (strictly_inside pointPolygonTest c pt <-> g = f k)) ->
  correct_labels pointPolygonTest im contours
  = map (fun k => (f k, k)) (seq 0 (length contours)).
Proof.
  intros Hone. unfold correct_labels, Py.enumerate.
  apply LabelFacts.labels_single_from. intros k c Hc. cbn [Nat.add].
  destruct (Hone k c Hc) as [Hlt Hiff]. split; [| exact Hiff].
  rewrite Grid.point_tests_rows. cbn [length]. exact Hlt.
Qed.

(** Two squares on a crop of side 40, the first around the test point of
    index 4 and the second around the test point of index 0. *)
Lemma one_point_per_contour_witness :
  correct_labels CvRef.pointPolygonTest (Samples.blank 40 40)
                 [Samples.square 15 15 10; Samples.square 5 5 10]
  = [(4, 0); (0, 1)]%nat.
Proof.
  refine (one_point_per_contour unit CvRef.pointPolygonTest (Samples.blank 40 40)
            [Samples.square 15 15 10; Samples.square 5 5 10]
            (fun k => match k with 0%nat => 4%nat | _ => 0%nat end) _).
  intros k c Hc.
  destruct k as [| [| k]].
  - injection Hc as <-. split; [lia |]. intros g pt Hpt.
    do 9 (destruct g as [| g];
          [injection Hpt as <-; vm_compute; split; [try discriminate | intros H; try discriminate H]; try reflexivity |]).
    destruct g; discriminate Hpt.
  - injection Hc as <-. split; [lia |]. intros g pt Hpt.
    do 9 (destruct g as [| g];
          [injection Hpt as <-; vm_compute; split; [try discriminate | intros H; try discriminate H]; try reflexivity |]).
    destruct g; discriminate Hpt.
  - destruct k; discriminate Hc.
Defined.

(** ** More on the filter and the selection *)

Module SelectFacts.

Section WithArea.

Variable contourArea : contour -> Q.

(** The filter raises on the contour without point whose area is in the
    band, and only there. *)
Lemma is_rubik_square_raises (c : contour) (cw : Z) (e : exn) :
  is_rubik_square contourArea c cw = Raise e
  <-> c = [] /\ in_band cw (contourArea c) /\ e = IndexError.
Proof.
  unfold is_rubik_square, in_band.
  destruct (Qle_bool (band_lo cw) (contourArea c)) eqn:Hlo;
    destruct (Qle_bool (contourArea c) (band_hi cw)) eqn:Hhi; cbn [andb].
  - apply Qle_bool_iff in Hlo, Hhi.
    destruct c as [| p rest].
    + cbn. split.
      * intros Heq. injection Heq as <-.
        split; [reflexivity | split; [split; assumption | reflexivity]].
      * intros (_ & _ & ->). reflexivity.
    + rewrite Filter.first_last_allclose_cons. split; [discriminate |].
      intros (Hnil & _). discriminate Hnil.
  - split; [discriminate |]. intros (_ & [_ H] & _).
    apply Qle_bool_iff in H. congruence.
  - split; [discriminate |]. intros (_ & [H _] & _).
    apply Qle_bool_iff in H. congruence.
  - split; [discriminate |]. intros (_ & [H _] & _).
    apply Qle_bool_iff in H. congruence.
Qed.

(** The loop returns exactly when the filter returns on every contour. *)
Lemma closed_contours_cases (contours : list contour) (cw : Z) :
  (Forall (fun c => c = [] -> ~ in_band cw (contourArea c)) contours
   /\ closed_contours contourArea contours cw
      = Ok (filter (accepts contourArea cw) contours))
  \/ (Exists (fun c => c = [] /\ in_band cw (contourArea c)) contours
      /\ closed_contours contourArea contours cw = Raise IndexError).
Proof.
  induction contours as [| c rest IH]; cbn [closed_contours filter].
  - left. split; [constructor | reflexivity].
  - destruct (is_rubik_square contourArea c cw) as [keep | e] eqn:Hc.
    + assert (c = [] -> ~ in_band cw (contourArea c)) as Hfine.
      { intros Hnil Hband.
        assert (is_rubik_square contourArea c cw = Raise IndexError) as Hraise
          by (apply is_rubik_square_raises;
              split; [exact Hnil | split; [exact Hband | reflexivity]]).
        congruence. }
      assert (accepts contourArea cw c = keep) as Hkeep
        by (unfold accepts; rewrite Hc; reflexivity).
      destruct IH as [[Hall Hok] | [Hex Hraise]].
      * left. split; [constructor; assumption |].
        rewrite Hok, Hkeep. cbn [bind]. destruct keep; reflexivity.
      * right. split; [apply Exists_cons_tl; exact Hex |].
        rewrite Hraise. reflexivity.
    + apply is_rubik_square_raises in Hc. destruct Hc as (Hnil & Hband & ->).
      right. split; [apply Exists_cons_hd; split; assumption | reflexivity].
Qed.

Lemma Exists_not_Forall (P : contour -> Prop) (l : list contour) :
  Exists P l -> ~ Forall (fun c => ~ P c) l.
Proof.
  intros Hex Hall. apply Exists_exists in Hex. destruct Hex as (c & Hin & Hp).
  rewrite Forall_forall in Hall. exact (Hall c Hin Hp).
Qed.

(** The part in front of a descending list is above the part behind. *)
Lemma sorted_split {A : Type} (key : A -> Q) (n : nat) (l : list A) :
  StronglySorted (fun a b => (key b <= key a)%Q) l ->
  forall k d, In k (firstn n l) -> In d (skipn n l) -> (key d <= key k)%Q.
Proof.
  intros Hsorted. revert n.
  induction Hsorted as [| a l Hl IH Hall]; intros n k d Hk Hd.
  - rewrite firstn_nil in Hk. destruct Hk.
  - destruct n as [| n]; cbn [firstn skipn] in Hk, Hd; [destruct Hk |].
    destruct Hk as [<- | Hk].
    + rewrite Forall_forall in Hall. apply Hall.
      rewrite <- (firstn_skipn n l). apply in_or_app. right. exact Hd.
    + exact (IH n k d Hk Hd).
Qed.

End WithArea.

End SelectFacts.

(** X9.  [select_stickers] raises IndexError exactly when some contour has
    no point and an area inside the band, and returns a list exactly when
    there is no such contour; it raises nothing else.  Where the area of
    the contour without point is 0, as OpenCV computes it, this happens
    only at the intended width 0. *)
Theorem select_stickers_raises_on_empty_contour
  (contourArea : contour -> Q) (contours : list contour) (center_width : Z) :
  (select_stickers contourArea contours center_width = Raise IndexError
   <-> Exists (fun c => c = [] /\ in_band center_width (contourArea c)) contours)
  /\ ((exists kept, select_stickers contourArea contours center_width = Ok kept)
      <-> Forall (fun c => c = [] -> ~ in_band center_width (contourArea c)) contours)
  /\ select_stickers contourArea contours center_width <> Raise CvError
  /\ ((contourArea [] == 0)%Q ->
      (select_stickers contourArea contours center_width = Raise IndexError
       <-> In [] contours /\ center_width = 0)).
Proof.
  assert (select_stickers contourArea contours center_width = Raise IndexError
          <-> Exists (fun c => c = [] /\ in_band center_width (contourArea c)) contours)
    as Hraise.
  { unfold select_stickers.
    destruct (SelectFacts.closed_contours_cases contourArea contours center_width)
      as [[Hall ->] | [Hex ->]]; cbn [bind].
    - split; [discriminate |]. intros Hex. exfalso.
      apply Exists_exists in Hex. destruct Hex as (c & Hin & Hnil & Hband).
      rewrite Forall_forall in Hall. exact (Hall c Hin Hnil Hband).
    - split; [intros _; exact Hex | reflexivity]. }
  split; [exact Hraise |]. split; [| split].
  - unfold select_stickers.
    destruct (SelectFacts.closed_contours_cases contourArea contours center_width)
      as [[Hall ->] | [Hex ->]]; cbn [bind].
    + split; [intros _; exact Hall | intros _; eexists; reflexivity].
    + split; [intros [kept Hkept]; discriminate Hkept |].
      intros Hall. exfalso.
      apply Exists_exists in Hex. destruct Hex as (c & Hin & Hnil & Hband).
      rewrite Forall_forall in Hall. exact (Hall c Hin Hnil Hband).
  - unfold select_stickers.
    destruct (SelectFacts.closed_contours_cases contourArea contours center_width)
      as [[Hall ->] | [Hex ->]]; cbn [bind]; discriminate.
  - intros Hzero. rewrite Hraise, Exists_exists. split.
    + intros (c & Hin & -> & Hlo & _). split; [exact Hin |].
      unfold band_lo in Hlo. rewrite Hzero in Hlo.
      assert (inject_Z center_width == 0)%Q as Hcw.
      { set (s := inject_Z center_width) in *.
        assert ((s / 3 - s / 9) ^ 2 == (4 # 81) * (s * s))%Q as Heq by field.
        rewrite Heq in Hlo. nra. }
      unfold Qeq in Hcw. cbn in Hcw. lia.
    + intros [Hin ->]. exists []. split; [exact Hin |]. split; [reflexivity |].
      unfold in_band. rewrite Hzero. split; discriminate.
Qed.

Lemma select_stickers_raises_on_empty_contour_witness :
  select_stickers CvRef.contourArea [Samples.square 0 0 2; []] 0 = Raise IndexError.
Proof.
  refine (proj2 (proj2 (proj2 (proj2
    (select_stickers_raises_on_empty_contour CvRef.contourArea
       [Samples.square 0 0 2; []] 0))) _) _).
  - reflexivity.
  - split; [right; left; reflexivity | reflexivity].
Defined.

(** X10.  When the filter loop returns the list [passing],
    [select_stickers] keeps the nine largest of them: it returns
    [min 9 (length passing)] contours, the returned and the dropped
    contours together are the passing ones, and no dropped contour has a
    larger area than a returned one. *)
Theorem select_stickers_nine_largest
  (contourArea : contour -> Q) (contours passing : list contour) (center_width : Z) :
  closed_contours contourArea contours center_width = Ok passing ->
  passing = filter (accepts contourArea center_width) contours
  /\ exists kept dropped,
       select_stickers contourArea contours center_width = Ok kept
       /\ Permutation (kept ++ dropped) passing
       /\ length kept = Nat.min 9 (length passing)
       /\ forall k d, In k kept -> In d dropped ->
                      (contourArea d <= contourArea k)%Q.
Proof.
  intros Hloop. split.
  - destruct (SelectFacts.closed_contours_cases contourArea contours center_width)
      as [[_ Hok] | [_ Hraise]]; congruence.
  - exists (firstn 9 (Py.sorted_reverse contourArea passing)),
           (skipn 9 (Py.sorted_reverse contourArea passing)).
    split; [unfold select_stickers; rewrite Hloop; reflexivity |].
    split; [rewrite firstn_skipn; apply Ranking.sorted_reverse_perm |].
    split.
    + rewrite length_firstn.
      rewrite (Permutation_length (Ranking.sorted_reverse_perm contourArea passing)).
      reflexivity.
    + apply SelectFacts.sorted_split. apply Ranking.sorted_reverse_sorted.
Qed.

(** Ten squares of sides 10 to 19 at the intended width 44: the square
    of side 10 is dropped. *)
Lemma select_stickers_nine_largest_witness :
  exists kept,
    select_stickers CvRef.contourArea
      (map (fun side => Samples.square 0 0 side) [10; 11; 12; 13; 14; 15; 16; 17; 18; 19])
      44 = Ok kept
    /\ length kept = 9%nat.
Proof.
  destruct (select_stickers_nine_largest CvRef.contourArea
              (map (fun side => Samples.square 0 0 side)
                   [10; 11; 12; 13; 14; 15; 16; 17; 18; 19])
              (map (fun side => Samples.square 0 0 side)
                   [10; 11; 12; 13; 14; 15; 16; 17; 18; 19])
              44)
    as (_ & kept & dropped & Hkept & _ & Hlength & _).
  - vm_compute. reflexivity.
  - exists kept. split; [exact Hkept | exact Hlength].
Defined.

(** X11.  When [identify_stickers] returns, the image it returns is the
    centre crop of the input, it returns at most nine contours, and each
    of them is one of the contours that [findContours] found on the edges
    of the crop and is accepted by [is_rubik_square] at the intended
    width [true_center_width]. *)
Theorem identify_stickers_returns_accepted
  (pixel gray_image edge_image hierarchy : Type)
  (cvtColor : image pixel -> cv_constant -> result gray_image)
  (GaussianBlur : gray_image -> Z * Z -> Z -> result gray_image)
  (Canny : gray_image -> Z -> Z -> result edge_image)
  (findContours :
     edge_image -> cv_constant -> cv_constant -> result (list contour * hierarchy))
  (contourArea : contour -> Q)
  (im image_cropped : image pixel) (sticker_contours : list contour) :
  identify_stickers cvtColor GaussianBlur Canny findContours contourArea im
    = Ok (image_cropped, sticker_contours) ->
  let g := sticker_geometry (fst (shape im)) (snd (shape im)) in
  image_cropped = crop_center im
  /\ (length sticker_contours <= 9)%nat
  /\ exists edges found,
       detect_edges cvtColor GaussianBlur Canny (crop_center im) = Ok edges
       /\ findContours edges RETR_EXTERNAL CHAIN_APPROX_NONE = Ok found
       /\ Forall (fun c =>
                    In c (fst found)
                    /\ is_rubik_square contourArea c (true_center_width g) = Ok true)
                 sticker_contours.
Proof.
  unfold identify_stickers. intros Hrun. cbv zeta.
  destruct (shape im) as [H W]. cbn [fst snd].
  destruct (detect_edges cvtColor GaussianBlur Canny (crop_center im))
    as [edges | e] eqn:Hedges; [| discriminate Hrun].
  cbn [bind] in Hrun.
  destruct (findContours edges RETR_EXTERNAL CHAIN_APPROX_NONE)
    as [found | e] eqn:Hfound; [| discriminate Hrun].
  cbn [bind] in Hrun.
  destruct (select_stickers contourArea (fst found)
              (true_center_width (sticker_geometry H W)))
    as [kept | e] eqn:Hselect; [| discriminate Hrun].
  cbn [bind] in Hrun. injection Hrun as <- <-.
  unfold select_stickers in Hselect.
  destruct (SelectFacts.closed_contours_cases contourArea (fst found)
              (true_center_width (sticker_geometry H W)))
    as [[_ Hok] | [_ Hraise]];
    [rewrite Hok in Hselect | rewrite Hraise in Hselect; discriminate Hselect].
  assert (kept = firstn 9 (Py.sorted_reverse contourArea
            (filter (accepts contourArea (true_center_width (sticker_geometry H W)))
                    (fst found)))) as ->
    by (cbn [bind] in Hselect; congruence).
  clear Hselect.
  split; [reflexivity |]. split; [apply firstn_le_length |].
  exists edges, found. split; [reflexivity |]. split; [exact Hfound |].
  apply Forall_forall. intros c Hc.
  assert (In c (filter (accepts contourArea (true_center_width (sticker_geometry H W)))
                       (fst found))) as Hin.
  { apply (Permutation_in c (Ranking.sorted_reverse_perm contourArea _)).
    rewrite <- (firstn_skipn 9 (Py.sorted_reverse contourArea _)).
    apply in_or_app. left. exact Hc. }
  apply filter_In in Hin. destruct Hin as [Hin Haccepts]. split; [exact Hin |].
  unfold accepts in Haccepts.
  destruct (is_rubik_square contourArea c (true_center_width (sticker_geometry H W)))
    as [keep | e]; [subst keep; reflexivity | discriminate Haccepts].
Qed.

(** An image of 48 by 48 pixels, with the intended width 24, on which the
    contour finder answers rectangles of areas 50, 70, 200 and 30: the
    rectangle of area 200 is outside the band. *)
Lemma identify_stickers_returns_accepted_witness :
  (length [Samples.rectangle 10 0 7 10; Samples.rectangle 0 0 5 10;
           Samples.rectangle 30 0 3 10] <= 9)%nat.
Proof.
  refine (proj1 (proj2
    (identify_stickers_returns_accepted unit (image unit) (image unit) unit
       Samples.nonempty_cvtColor Samples.accept_GaussianBlur Samples.accept_Canny
       (fixed_contours [Samples.rectangle 0 0 5 10; Samples.rectangle 10 0 7 10;
                        Samples.rectangle 20 0 20 10; Samples.rectangle 30 0 3 10])
       CvRef.contourArea (Samples.blank 48 48)
       (crop_center (Samples.blank 48 48))
       [Samples.rectangle 10 0 7 10; Samples.rectangle 0 0 5 10;
        Samples.rectangle 30 0 3 10] _))).
  vm_compute. reflexivity.
Defined.

(** X12.  The band of [is_rubik_square] is the band of the comment of the
    code: with the expected side [center_width / 3], its bounds are the
    squares of the expected side less one third and plus one third; so a
    contour that passes the closure test and has exactly the expected area
    [(center_width / 3)^2] is accepted at every intended width. *)
Theorem band_is_expected_side_within_a_third
  (contourArea : contour -> Q) (center_width : Z) :
  let expected := (inject_Z center_width / 3)%Q in
  (band_lo center_width == ((2 # 3) * expected) ^ 2)%Q
  /\ (band_hi center_width == ((4 # 3) * expected) ^ 2)%Q
  /\ in_band center_width (expected ^ 2)
  /\ forall c : contour,
       first_last_allclose c = Ok true ->
       (contourArea c == expected ^ 2)%Q ->
       is_rubik_square contourArea c center_width = Ok true.
Proof.
  cbv zeta. unfold in_band, band_lo, band_hi.
  set (s := inject_Z center_width).
  assert ((s / 3 - s / 9) ^ 2 == ((2 # 3) * (s / 3)) ^ 2)%Q as Hlo by field.
  assert ((s / 3 + s / 9) ^ 2 == ((4 # 3) * (s / 3)) ^ 2)%Q as Hhi by field.
  assert ((s / 3 - s / 9) ^ 2 <= (s / 3) ^ 2 /\ (s / 3) ^ 2 <= (s / 3 + s / 9) ^ 2)%Q
    as Hband.
  { assert ((s / 3 - s / 9) ^ 2 == (4 # 81) * (s * s))%Q as -> by field.
    assert ((s / 3 + s / 9) ^ 2 == (16 # 81) * (s * s))%Q as -> by field.
    assert ((s / 3) ^ 2 == (9 # 81) * (s * s))%Q as -> by field.
    split; nra. }
  split; [exact Hlo |]. split; [exact Hhi |]. split; [exact Hband |].
  intros c Hclosed Harea. apply Filter.is_rubik_square_true.
  unfold band_lo, band_hi. fold s. rewrite Harea.
  split; [apply Hband |]. split; [apply Hband | exact Hclosed].
Qed.

Lemma band_is_expected_side_within_a_third_witness :
  is_rubik_square CvRef.contourArea (Samples.square 20 20 8) 24 = Ok true.
Proof.
  refine (proj2 (proj2 (proj2
    (band_is_expected_side_within_a_third CvRef.contourArea 24)))
    (Samples.square 20 20 8) _ _).
  - reflexivity.
  - reflexivity.
Defined.

(** X13.  For a contour whose first and last points differ by at most 30
    on each axis, in particular for a contour that ends on its first
    point, [is_rubik_square] returns, and its answer is whether the area is
    inside the band. *)
Theorem closed_contour_decided_by_area
  (contourArea : contour -> Q) (p : point) (rest : contour) (center_width : Z) :
  let c := p :: rest in
  let q := last c p in
  Z.abs (fst p - fst q) <= 30 -> Z.abs (snd p - snd q) <= 30 ->
  is_rubik_square contourArea c center_width
  = Ok (Qle_bool (band_lo center_width) (contourArea c)
        && Qle_bool (contourArea c) (band_hi center_width)).
Proof.
  cbv zeta. intros Hx Hy. unfold is_rubik_square.
  destruct (Qle_bool _ _ && Qle_bool _ _); [| reflexivity].
  rewrite Filter.first_last_allclose_cons.
  rewrite (Filter.allclose_within_30 _ _ Hx Hy). reflexivity.
Qed.

Lemma closed_contour_decided_by_area_witness :
  is_rubik_square CvRef.contourArea (Samples.square 0 0 30) 24 = Ok false.
Proof.
  refine (closed_contour_decided_by_area CvRef.contourArea (0, 0)
            [(0, 30); (30, 30); (30, 0); (0, 0)] 24 _ _).
  - cbn. lia.
  - cbn. lia.
Defined.

(** X14.  For every image size the crop window is centred: along the
    longer axis the margins before and after the window differ by the
    parity of that side, so by one pixel at most; along the shorter axis
    the margin before the window is the eighth [b] of the side and the
    margin after it is [b] plus the remainder of the side by 8.  The
    intended width is two thirds of the width of the window, which is at
    most the shorter side. *)
Theorem crop_window_centred (H W : Z) :
  0 <= H -> 0 <= W ->
  let g := sticker_geometry H W in
  3 * true_center_width g = 2 * center_width g
  /\ center_width g <= Z.min H W
  /\ (H <= W ->
      border_top g = H / 8
      /\ H - (border_top g + center_width g) = H / 8 + H mod 8
      /\ (W - (border_side g + center_width g)) - border_side g = W mod 2)
  /\ (W < H ->
      border_side g = W / 8
      /\ W - (border_side g + center_width g) = W / 8 + W mod 8
      /\ (H - (border_top g + center_width g)) - border_top g = H mod 2).
Proof.
  intros HH HW. cbv zeta. unfold sticker_geometry.
  destruct (Z.geb_spec W H) as [Hge | Hlt];
    cbn [border_top border_side true_center_width center_width];
    (split; [lia |]); (split; [Z.div_mod_to_equations; lia |]);
    (split; [intros Hle | intros Hle]); try lia;
    repeat split; Z.div_mod_to_equations; lia.
Qed.

Lemma crop_window_centred_witness :
  let g := sticker_geometry 601 805 in
  (805 - (border_side g + center_width g)) - border_side g = 1.
Proof.
  refine (proj2 (proj2 (proj1 (proj2 (proj2
    (crop_window_centred 601 805 _ _))) _))).
  - lia.
  - lia.
  - lia.
Defined.

(** ** The pixels of the crop and of a small overlay *)

Module CropFacts.

(** The elements of a slice inside the sequence. *)
Lemma slice_nth {A : Type} (l : list A) (i j : Z) (k : nat) :
  0 <= i -> i <= j -> j <= Z.of_nat (length l) ->
  nth_error (Py.slice l i j) k
  = if Z.of_nat k <? j - i then nth_error l (Z.to_nat i + k) else None.
Proof.
  intros Hi Hij Hj. unfold Py.slice.
  rewrite !slice_bound_inside by lia.
  rewrite nth_error_firstn, nth_error_skipn.
  destruct (Nat.ltb_spec k (Z.to_nat (j - i)));
    destruct (Z.ltb_spec (Z.of_nat k) (j - i)); try reflexivity; lia.
Qed.

(** Painting nowhere leaves the image as it is. *)
Lemma paint_nowhere {pixel : Type} (P : Z -> Z -> bool) (v : pixel) (im : image pixel) :
  (forall r c, P r c = false) -> paint P v im = im.
Proof.
  intros Hnone. destruct im as [rows width]. unfold paint. cbn [img_rows img_width].
  f_equal. rewrite <- (Overlay.map_from_id rows 0) at 2.
  apply Overlay.map_from_ext. intros i row _.
  rewrite <- (Overlay.map_from_id row 0) at 2.
  apply Overlay.map_from_ext. intros j x _. rewrite Hnone. reflexivity.
Qed.

Lemma on_guideline_no_width (top side r c : Z) :
  on_guideline top side 0 r c = false.
Proof.
  unfold on_guideline. rewrite !Z.add_0_r.
  destruct (Z.leb_spec side c); destruct (Z.ltb_spec c side);
    destruct (Z.leb_spec top r); destruct (Z.ltb_spec r top);
    rewrite ?andb_false_r, ?andb_false_l; try reflexivity; lia.
Qed.

End CropFacts.

(** X15.  The image that [identify_stickers] crops is the window of the
    input: on a rectangular image, the pixel of row [r] and column [c] of
    the crop is the pixel of row [border_top + r] and column
    [border_side + c] of the input when [r] and [c] are under
    [center_width], and the crop has no other pixel. *)
Theorem crop_center_pixels (pixel : Type) (im : image pixel) (r c : nat) :
  image_wf im ->
  let g := sticker_geometry (fst (shape im)) (snd (shape im)) in
  pixel_at (crop_center im) r c
  = if (Z.of_nat r <? center_width g) && (Z.of_nat c <? center_width g)
    then pixel_at im (Z.to_nat (border_top g) + r) (Z.to_nat (border_side g) + c)
    else None.
Proof.
  intros Hwf. cbv zeta. unfold crop_center, shape. cbn [fst snd].
  set (H := Z.of_nat (length (img_rows im))).
  set (W := Z.of_nat (img_width im)).
  destruct (Geometry.window_inside H W) as (Ht & Hb & Hl & Hr & Hc); [lia | lia |].
  cbv zeta in Ht, Hb, Hl, Hr, Hc.
  set (g := sticker_geometry H W) in *.
  unfold pixel_at, crop. cbn [img_rows].
  rewrite nth_error_map, CropFacts.slice_nth by (fold H; lia).
  replace (border_top g + center_width g - border_top g) with (center_width g) by lia.
  destruct (Z.ltb_spec (Z.of_nat r) (center_width g)) as [Hrow | Hrow];
    cbn [andb option_map]; [| reflexivity].
  destruct (nth_error (img_rows im) (Z.to_nat (border_top g) + r)) as [row |] eqn:Hnth;
    cbn [option_map].
  - assert (length row = img_width im) as Hlen.
    { unfold image_wf in Hwf. rewrite Forall_forall in Hwf.
      apply Hwf. eapply nth_error_In. exact Hnth. }
    rewrite CropFacts.slice_nth by (rewrite ?Hlen; fold W; lia).
    replace (border_side g + center_width g - border_side g) with (center_width g) by lia.
    reflexivity.
  - destruct (Z.of_nat c <? center_width g); reflexivity.
Qed.

Lemma crop_center_pixels_witness :
  pixel_at (crop_center (plain 16 24 (7, 7, 7))) 11 11
  = pixel_at (plain 16 24 (7, 7, 7)) 13 17.
Proof.
  refine (crop_center_pixels rgb (plain 16 24 (7, 7, 7)) 11 11 _).
  unfold image_wf. cbn. repeat constructor.
Defined.

(** X16.  On a rectangular image that has a pixel and a shorter side
    under 8 pixels, [guidelines] draws nothing: it returns the image as it
    is. *)
Theorem guidelines_small_image_unchanged (im : image rgb) :
  image_wf im ->
  (1 <= length (img_rows im))%nat -> (1 <= img_width im)%nat ->
  Z.min (fst (shape im)) (snd (shape im)) < 8 ->
  guidelines im = Ok im.
Proof.
  intros Hwf Hrows Hwidth Hsmall.
  destruct (OverlayCases.guidelines_cases im Hwf)
    as [[Hnone Hraise] | (_ & _ & Hok)].
  - destruct Hnone as [Hnone | Hnone].
    + rewrite Hnone in Hrows. cbn in Hrows. lia.
    + lia.
  - rewrite Hok. f_equal.
    rewrite OverlayCases.same_window.
    cbn [guide_border_top guide_border_side guide_center_width].
    destruct (Geometry.small_no_window (fst (shape im)) (snd (shape im)))
      as [-> _]; [unfold shape; cbn; lia | unfold shape; cbn; lia | exact Hsmall |].
    apply CropFacts.paint_nowhere. intros r c.
    apply CropFacts.on_guideline_no_width.
Qed.

Lemma guidelines_small_image_unchanged_witness :
  guidelines (plain 5 7 (1, 2, 3)) = Ok (plain 5 7 (1, 2, 3)).
Proof.
  refine (guidelines_small_image_unchanged (plain 5 7 (1, 2, 3)) _ _ _ _).
  - unfold image_wf. cbn. repeat constructor.
  - cbn. lia.
  - cbn. lia.
  - cbn. lia.
Defined.
